(** * ClubOSV2 conversation-mining scripts: a shallow embedding

    The analysers under the repository root ([chatgpt-analyzer.py],
    [chatgpt-chunk-processor.py], [chatgpt-deep-analyzer.py],
    [mike-decision-tree-extractor.py], [mike-deep-dive-analyzer.py],
    [mike-final-analyzer.py], [mike-real-analysis.py]) all read the value
    returned by [json.load] and walk it with [dict.get], subscripts,
    truthiness tests and regular expressions.  The embedding keeps that
    shape: a JSON value type, the Python operations the scripts apply to
    it (with the exceptions they raise), a backtracking matcher for the
    fragment of [re] the pattern tables use, and then one module per
    script holding the functions under study.

    Text is modelled as [string]: one [ascii] per code point, i.e. the
    Latin-1 repertoire.  Numbers are rationals (every JSON int or finite
    float is one). *)

From Stdlib Require Import String Ascii List Bool Arith ZArith QArith Qround Lia.
From Stdlib Require Import Sorted.
Import ListNotations.
Set Warnings "-register-all".
Local Open Scope string_scope.
Local Open Scope list_scope.
Local Open Scope nat_scope.

(* ===================================================================== *)
(** ** The Python fragment *)
(* ===================================================================== *)

Module Py.

(** What [json.load] returns.  An object is kept as its items in insertion
    order, which is the order [dict.items()] iterates in. *)
Inductive json : Type :=
| JNull
| JBool (b : bool)
| JNum (q : Q)
| JStr (s : string)
| JArr (items : list json)
| JObj (fields : list (string * json)).

(** The exceptions the scripts can run into. *)
Inductive exn : Type :=
| AttributeError
| KeyError
| TypeError
| ValueError
| OverflowError
| OSError
| ReError
| RecursionError.

(** A computation either returns or raises. *)
Inductive result (A : Type) : Type :=
| Ok (a : A)
| Raise (e : exn).
Arguments Ok {A} a.
Arguments Raise {A} e.

Definition bind {A B} (m : result A) (f : A -> result B) : result B :=
  match m with
  | Ok a => f a
  | Raise e => Raise e
  end.

Definition is_ok {A} (m : result A) : bool :=
  match m with Ok _ => true | Raise _ => false end.

(** [for x in xs: acc = body(acc, x)], stopping at the first exception. *)
Fixpoint foldM {A S} (body : S -> A -> result S) (xs : list A) (acc : S)
  : result S :=
  match xs with
  | [] => Ok acc
  | x :: rest => bind (body acc x) (foldM body rest)
  end.

(** *** Strings *)

Definition nat_in (lo hi n : nat) : bool := (lo <=? n) && (n <=? hi).

(** [str.lower] on one code point of the Latin-1 range: A-Z, and U+00C0 to
    U+00DE except the multiplication sign U+00D7, move up by 32. *)
Definition lower_char (c : ascii) : ascii :=
  let n := nat_of_ascii c in
  if nat_in 65 90 n || (nat_in 192 222 n && negb (n =? 215))
  then ascii_of_nat (n + 32) else c.

Fixpoint lower (s : string) : string :=
  match s with
  | EmptyString => EmptyString
  | String c rest => String (lower_char c) (lower rest)
  end.

(** [str.isspace] on one code point (also what [\s] matches). *)
Definition is_space (c : ascii) : bool :=
  let n := nat_of_ascii c in
  nat_in 9 13 n || nat_in 28 32 n || (n =? 133) || (n =? 160).

(** What [\w] matches: [str.isalnum] or the underscore. *)
Definition is_word (c : ascii) : bool :=
  let n := nat_of_ascii c in
  nat_in 48 57 n || nat_in 65 90 n || nat_in 97 122 n || (n =? 95)
  || (n =? 170) || (n =? 178) || (n =? 179) || (n =? 181) || (n =? 185)
  || (n =? 186) || nat_in 188 190 n || nat_in 192 214 n
  || nat_in 216 246 n || nat_in 248 255 n.

Fixpoint lstrip (s : string) : string :=
  match s with
  | String c rest => if is_space c then lstrip rest else s
  | EmptyString => EmptyString
  end.

(** Drops the trailing white space: a character stays when it is not a
    space or something that stays follows it. *)
Fixpoint rstrip (s : string) : string :=
  match s with
  | EmptyString => EmptyString
  | String c rest =>
      match rstrip rest with
      | EmptyString => if is_space c then EmptyString else String c EmptyString
      | kept => String c kept
      end
  end.

(** [s.strip()] *)
Definition strip (s : string) : string := rstrip (lstrip s).

(** [' '.join(parts)] for parts already known to be strings. *)
Fixpoint join_space (parts : list string) : string :=
  match parts with
  | [] => EmptyString
  | [p] => p
  | p :: rest => (p ++ " " ++ join_space rest)%string
  end.

(** [needle in hay] for two strings. *)
Fixpoint contains (needle hay : string) : bool :=
  if prefix needle hay then true
  else match hay with
       | EmptyString => false
       | String _ rest => contains needle rest
       end.

(** [s[:n]] for [n >= 0]. *)
Definition take (n : nat) (s : string) : string := substring 0 n s.

(** [s[i:j]] for [0 <= i], [0 <= j]. *)
Definition str_slice (i j : nat) (s : string) : string := substring i (j - i) s.

(** *** Lists *)

(** [l[i:j]] for [0 <= i], [0 <= j]: clipped to the list, never raising. *)
Definition slice {A} (i j : nat) (l : list A) : list A :=
  firstn (j - i) (skipn i l).

(** *** Values *)

(** [bool(v)] *)
Definition truthy (v : json) : bool :=
  match v with
  | JNull => false
  | JBool b => b
  | JNum q => negb (Qnum q =? 0)%Z
  | JStr s => negb (String.eqb s "")
  | JArr items => match items with [] => false | _ => true end
  | JObj fields => match fields with [] => false | _ => true end
  end.

Fixpoint lookup (k : string) (fields : list (string * json)) : option json :=
  match fields with
  | [] => None
  | (k', v) :: rest => if String.eqb k k' then Some v else lookup k rest
  end.

(** [d.get(k, dflt)]: only a dict has [get]. *)
Definition get_or (d : json) (k : string) (dflt : json) : result json :=
  match d with
  | JObj fields =>
      match lookup k fields with
      | Some v => Ok v
      | None => Ok dflt
      end
  | _ => Raise AttributeError
  end.

(** [d.get(k)] *)
Definition get (d : json) (k : string) : result json := get_or d k JNull.

(** [d[k]] with a string key: [KeyError] on a dict without the key,
    [TypeError] on a value that takes no string subscript. *)
Definition getitem (d : json) (k : string) : result json :=
  match d with
  | JObj fields =>
      match lookup k fields with
      | Some v => Ok v
      | None => Raise KeyError
      end
  | _ => Raise TypeError
  end.

(** [d.items()] *)
Definition items (d : json) : result (list (string * json)) :=
  match d with
  | JObj fields => Ok fields
  | _ => Raise AttributeError
  end.

(** [d.keys()] *)
Definition keys (d : json) : result (list string) :=
  match d with
  | JObj fields => Ok (map fst fields)
  | _ => Raise AttributeError
  end.

Fixpoint chars (s : string) : list json :=
  match s with
  | EmptyString => []
  | String c rest => JStr (String c EmptyString) :: chars rest
  end.

(** What [for x in v] visits: the items of a list, the characters of a
    string, the keys of a dict; anything else is not iterable. *)
Definition iter (v : json) : result (list json) :=
  match v with
  | JArr items => Ok items
  | JStr s => Ok (chars s)
  | JObj fields => Ok (map (fun kv => JStr (fst kv)) fields)
  | _ => Raise TypeError
  end.

(** [isinstance(v, str)], [isinstance(v, dict)] *)
Definition is_str (v : json) : bool :=
  match v with JStr _ => true | _ => false end.
Definition is_dict (v : json) : bool :=
  match v with JObj _ => true | _ => false end.

(** [v == 'literal'] *)
Definition eq_str (v : json) (lit : string) : bool :=
  match v with JStr s => String.eqb s lit | _ => false end.

(** [' '.join(xs)] where the list may hold anything that was appended to
    it: a non-string item is a [TypeError]. *)
Fixpoint as_strings (xs : list json) : result (list string) :=
  match xs with
  | [] => Ok []
  | JStr s :: rest => bind (as_strings rest) (fun ss => Ok (s :: ss))
  | _ :: _ => Raise TypeError
  end.

Definition join (xs : list json) : result string :=
  bind (as_strings xs) (fun ss => Ok (join_space ss)).

(** *** Dicts of lists and counters, in insertion order *)

(** [d[key].extend(new)] on a [defaultdict(list)] (or on a dict that has
    the key): a missing key is added at the end. *)
Fixpoint extend_at {V} (key : string) (new : list V)
    (d : list (string * list V)) : list (string * list V) :=
  match d with
  | [] => [(key, new)]
  | (k, old) :: rest =>
      if String.eqb k key then (k, old ++ new) :: rest
      else (k, old) :: extend_at key new rest
  end.

(** [d[key]] read back, the empty list for a missing key. *)
Definition lookup_list {V} (key : string) (d : list (string * list V)) : list V :=
  match find (fun kv => String.eqb (fst kv) key) d with
  | Some kv => snd kv
  | None => []
  end.

(** [counter[term] += 1] on a [Counter] or a [defaultdict(int)]. *)
Fixpoint bump (term : string) (counter : list (string * nat))
  : list (string * nat) :=
  match counter with
  | [] => [(term, 1)]
  | (t, n) :: rest =>
      if String.eqb t term then (t, S n) :: rest
      else (t, n) :: bump term rest
  end.

(** [counter[term]] read back. *)
Definition count_of (term : string) (counter : list (string * nat)) : nat :=
  match find (fun kv => String.eqb (fst kv) term) counter with
  | Some kv => snd kv
  | None => 0
  end.

(** [str(v)]: a string is itself; how any other value prints (numbers,
    lists, dicts) is left to [repr]. *)
Definition str_with (repr : json -> string) (v : json) : string :=
  match v with JStr s => s | _ => repr v end.

(** *** Loops that append *)

Definition opt_list {B} (o : option B) : list B :=
  match o with Some y => [y] | None => [] end.

(** [for x in xs: ... out.append(y) ...] where a round appends at most one
    item: [f x] is what the round appends, if anything. *)
Definition collect {A B} (f : A -> result (option B)) (xs : list A)
    (out : list B) : result (list B) :=
  foldM (fun out x => bind (f x) (fun o => Ok (out ++ opt_list o))) xs out.

End Py.

Import Py.

Declare Scope py_scope.
Delimit Scope py_scope with py.
Notation "x <- m ;; k" := (bind m (fun x => k))
  (at level 61, m at next level, right associativity) : py_scope.
Local Open Scope py_scope.

(* ===================================================================== *)
(** ** The fragment of [re] the pattern tables use *)
(* ===================================================================== *)

Module Re.

(** [re.IGNORECASE], [re.DOTALL] *)
Record flags : Type := { ignorecase : bool; dotall : bool }.
Definition I : flags := {| ignorecase := true; dotall := false |}.
Definition I_S : flags := {| ignorecase := true; dotall := true |}.

(** A compiled pattern.  [Rep g lo hi r] is [r{lo,hi}] ([hi = None] for no
    bound), greedy when [g]; [Grp i r] is the i-th capturing group. *)
Inductive regex : Type :=
| Eps
| Chr (c : ascii)
| Any
| Space
| Word
| Eos
| OneOf (cs : list ascii)
| Cat (r1 r2 : regex)
| Alt (r1 r2 : regex)
| Rep (greedy : bool) (lo : nat) (hi : option nat) (r : regex)
| Grp (i : nat) (r : regex).

(** *** Reading a pattern

    Recursive descent over the pattern text: alternatives of sequences of
    quantified atoms.  Groups are numbered by their opening parenthesis.
    [None] stands for [re.error], and is also the answer to a construct
    outside the fragment (anchors other than [$], ranges and negation in
    sets, escapes other than [\s], [\w] and escaped punctuation): the
    pattern tables of the scripts use none of these. *)

Definition is_digit (c : ascii) : bool := nat_in 48 57 (nat_of_ascii c).

Fixpoint read_nat (p : string) (acc : nat) : nat * string :=
  match p with
  | String c rest =>
      if is_digit c then read_nat rest (10 * acc + (nat_of_ascii c - 48))
      else (acc, p)
  | EmptyString => (acc, p)
  end.

(** The optional [?] after a quantifier makes it lazy. *)
Definition read_lazy (lo : nat) (hi : option nat) (a : regex) (p : string)
  : regex * string :=
  match p with
  | String "?" rest => (Rep false lo hi a, rest)
  | _ => (Rep true lo hi a, p)
  end.

Definition read_quant (a : regex) (p : string) : option (regex * string) :=
  match p with
  | String "*" rest => Some (read_lazy 0 None a rest)
  | String "+" rest => Some (read_lazy 1 None a rest)
  | String "?" rest => Some (read_lazy 0 (Some 1) a rest)
  | String "{" rest =>
      match rest with
      | String d _ =>
          if is_digit d then
            let '(lo, p1) := read_nat rest 0 in
            match p1 with
            | String "}" p2 => Some (read_lazy lo (Some lo) a p2)
            | String "," (String "}" p2) => Some (read_lazy lo None a p2)
            | String "," p2 =>
                let '(hi, p3) := read_nat p2 0 in
                match p3 with
                | String "}" p4 =>
                    if hi <? lo then None else Some (read_lazy lo (Some hi) a p4)
                | _ => None
                end
            | _ => None
            end
          else None
      | EmptyString => None
      end
  | _ => Some (a, p)
  end.

(** After a backslash: the classes used by the tables, else the character
    itself when it is punctuation. *)
Definition read_escape (c : ascii) : option regex :=
  if Ascii.eqb c "s" then Some Space
  else if Ascii.eqb c "w" then Some Word
  else if is_word c then None
  else Some (Chr c).

(** The members of a set, up to the closing bracket (no ranges, no
    negation: the tables have none). *)
Fixpoint read_set (p : string) (acc : list ascii) : option (regex * string) :=
  match p with
  | EmptyString => None
  | String "]" rest => match acc with [] => None | _ => Some (OneOf (rev acc), rest) end
  | String "\" (String c rest) =>
      if is_word c then None else read_set rest (c :: acc)
  | String "\" EmptyString => None
  | String "-" _ => None
  | String "^" _ => None
  | String c rest => read_set rest (c :: acc)
  end.

Fixpoint read_alt (fuel : nat) (p : string) (g : nat)
  : option (regex * string * nat) :=
  match fuel with
  | O => None
  | S fuel' =>
      match read_seq fuel' p g with
      | Some (r1, String "|" rest, g1) =>
          match read_alt fuel' rest g1 with
          | Some (r2, p2, g2) => Some (Alt r1 r2, p2, g2)
          | None => None
          end
      | other => other
      end
  end
with read_seq (fuel : nat) (p : string) (g : nat)
  : option (regex * string * nat) :=
  match fuel with
  | O => None
  | S fuel' =>
      match p with
      | EmptyString => Some (Eps, p, g)
      | String "|" _ => Some (Eps, p, g)
      | String ")" _ => Some (Eps, p, g)
      | _ =>
          match read_atom fuel' p g with
          | Some (a, p1, g1) =>
              match read_quant a p1 with
              | Some (q, p2) =>
                  match read_seq fuel' p2 g1 with
                  | Some (Eps, p3, g3) => Some (q, p3, g3)
                  | Some (r, p3, g3) => Some (Cat q r, p3, g3)
                  | None => None
                  end
              | None => None
              end
          | None => None
          end
      end
  end
with read_atom (fuel : nat) (p : string) (g : nat)
  : option (regex * string * nat) :=
  match fuel with
  | O => None
  | S fuel' =>
      match p with
      | EmptyString => None
      | String "(" (String "?" (String ":" rest)) =>
          match read_alt fuel' rest g with
          | Some (r, String ")" p1, g1) => Some (r, p1, g1)
          | _ => None
          end
      | String "(" (String "?" _) => None
      | String "(" rest =>
          match read_alt fuel' rest (S g) with
          | Some (r, String ")" p1, g1) => Some (Grp (S g) r, p1, g1)
          | _ => None
          end
      | String "[" rest =>
          match read_set rest [] with
          | Some (r, p1) => Some (r, p1, g)
          | None => None
          end
      | String "\" (String c rest) =>
          match read_escape c with
          | Some r => Some (r, rest, g)
          | None => None
          end
      | String "\" EmptyString => None
      | String "." rest => Some (Any, rest, g)
      | String "$" rest => Some (Eos, rest, g)
      | String "*" _ => None
      | String "+" _ => None
      | String "?" _ => None
      | String "{" _ => None
      | String "^" _ => None
      | String c rest => Some (Chr c, rest, g)
      end
  end.

(** [re.compile(pattern)] *)
Definition compile (pattern : string) : option regex :=
  match read_alt (4 * String.length pattern + 4) pattern 0 with
  | Some (r, EmptyString, _) => Some r
  | _ => None
  end.

(** *** Matching

    A backtracking matcher in continuation style: alternatives are tried
    left to right, a greedy repetition tries one more round before
    stopping and a lazy one the other way round, so the first success is
    the match [re] reports. Captures are kept latest first. *)

Definition caps : Type := list (nat * string).
Definition cont : Type := string -> caps -> option (string * caps).

Definition chr_eq (f : flags) (c d : ascii) : bool :=
  if ignorecase f then Ascii.eqb (lower_char c) (lower_char d)
  else Ascii.eqb c d.

Definition newline : ascii := ascii_of_nat 10.

(** [$] without [re.MULTILINE]: at the end, or before a final newline. *)
Definition at_end (s : string) : bool :=
  match s with
  | EmptyString => true
  | String c EmptyString => Ascii.eqb c newline
  | _ => false
  end.

Definition one (ok : ascii -> bool) (s : string) (cs : caps) (k : cont)
  : option (string * caps) :=
  match s with
  | String d rest => if ok d then k rest cs else None
  | EmptyString => None
  end.

Definition orelse {A} (a b : option A) : option A :=
  match a with Some _ => a | None => b end.

Definition below (hi : option nat) (n : nat) : bool :=
  match hi with None => true | Some h => n <? h end.

(** [n] rounds of [step] are done.  A round that consumes nothing is cut
    (no repeated item of the tables can match the empty string); [fuel]
    only has to exceed the length of the text left. *)
Fixpoint rep (step : string -> caps -> cont -> option (string * caps))
    (greedy : bool) (lo : nat) (hi : option nat)
    (fuel n : nat) (s : string) (cs : caps) (k : cont)
  : option (string * caps) :=
  match fuel with
  | O => None
  | S fuel' =>
      let more :=
        if below hi n then
          step s cs (fun s' cs' =>
            if String.length s' <? String.length s
            then rep step greedy lo hi fuel' (S n) s' cs' k
            else None)
        else None in
      let stop := if lo <=? n then k s cs else None in
      if greedy then orelse more stop else orelse stop more
  end.

Fixpoint run (f : flags) (r : regex) (s : string) (cs : caps) (k : cont)
  : option (string * caps) :=
  match r with
  | Eps => k s cs
  | Chr c => one (chr_eq f c) s cs k
  | Any => one (fun d => dotall f || negb (Ascii.eqb d newline)) s cs k
  | Space => one is_space s cs k
  | Word => one is_word s cs k
  | Eos => if at_end s then k s cs else None
  | OneOf members => one (fun d => existsb (fun c => chr_eq f c d) members) s cs k
  | Cat r1 r2 => run f r1 s cs (fun s' cs' => run f r2 s' cs' k)
  | Alt r1 r2 => orelse (run f r1 s cs k) (run f r2 s cs k)
  | Rep greedy lo hi r1 =>
      rep (run f r1) greedy lo hi (S (String.length s)) 0 s cs k
  | Grp i r1 =>
      run f r1 s cs (fun s' cs' =>
        k s' ((i, take (String.length s - String.length s') s) :: cs'))
  end.

(** A match object: [m.start()], [m.end()], and the groups that took part. *)
Record rmatch : Type := { m_start : nat; m_end : nat; m_caps : caps }.

Fixpoint assoc (i : nat) (cs : caps) : option string :=
  match cs with
  | [] => None
  | (j, v) :: rest => if i =? j then Some v else assoc i rest
  end.

(** [m.group(i)] for [i >= 1]; [m.group()] needs the text searched. *)
Definition group (i : nat) (m : rmatch) : option string := assoc i (m_caps m).
Definition group0 (text : string) (m : rmatch) : string :=
  str_slice (m_start m) (m_end m) text.

(** [m.lastindex]: the group closed last, if any. *)
Definition lastindex (m : rmatch) : option nat :=
  match m_caps m with
  | [] => None
  | (i, _) :: _ => Some i
  end.

(** The leftmost match in [s], which starts at offset [pos] of the text. *)
Fixpoint search_at (f : flags) (r : regex) (pos : nat) (s : string)
  : option (rmatch * string) :=
  match run f r s [] (fun s' cs => Some (s', cs)) with
  | Some (s', cs) =>
      Some ({| m_start := pos;
               m_end := pos + (String.length s - String.length s');
               m_caps := cs |}, s')
  | None =>
      match s with
      | EmptyString => None
      | String _ rest => search_at f r (S pos) rest
      end
  end.

(** [re.search(pattern, text, flags)] *)
Definition search (f : flags) (r : regex) (text : string) : option rmatch :=
  option_map fst (search_at f r 0 text).

Definition drop1 (s : string) : string :=
  match s with String _ rest => rest | EmptyString => EmptyString end.

(** The successive non-overlapping matches from offset [pos] on.  After a
    match that consumed nothing the scan moves on by one character. *)
Fixpoint matches_from (fuel : nat) (f : flags) (r : regex) (pos : nat)
    (s : string) : list rmatch :=
  match fuel with
  | O => []
  | S fuel' =>
      match search_at f r pos s with
      | None => []
      | Some (m, s') =>
          if m_end m =? m_start m then
            match s' with
            | EmptyString => [m]
            | String _ rest => m :: matches_from fuel' f r (S (m_end m)) rest
            end
          else m :: matches_from fuel' f r (m_end m) s'
      end
  end.

(** [list(re.finditer(pattern, text, flags))] *)
Definition finditer (f : flags) (r : regex) (text : string) : list rmatch :=
  matches_from (S (String.length text)) f r 0 text.

(** [re.findall(pattern, text, flags)] for a pattern without capturing
    groups: the matched texts. *)
Definition findall (f : flags) (r : regex) (text : string) : list string :=
  map (group0 text) (finditer f r text).

(** Compiling on use: a malformed pattern raises [re.error]. *)
Definition compiled (pattern : string) : result regex :=
  match compile pattern with
  | Some r => Ok r
  | None => Raise ReError
  end.

End Re.

(* ===================================================================== *)
(** ** chatgpt-chunk-processor.py *)
(* ===================================================================== *)

Module ChunkProcessor.

(** [range(0, stop, step)] for [step > 0]: the object holds
    [(stop - 1) // step + 1] values when [stop > 0], the k-th being
    [k * step]. *)
Definition range_len (stop step : nat) : nat :=
  match stop with
  | O => O
  | S p => p / step + 1
  end.

Definition range_step (stop step : nat) : list nat :=
  map (fun k => k * step) (seq 0 (range_len stop step)).

(** [[conversations[i:i+chunk_size] for i in range(0, total_convs, chunk_size)]]
    A zero step makes [range] raise; a negative one gives the empty range. *)
Definition chunks {A} (conversations : list A) (chunk_size : Z)
  : result (list (list A)) :=
  let total_convs := length conversations in
  if (chunk_size =? 0)%Z then Raise ValueError
  else if (chunk_size <? 0)%Z then Ok []
  else
    let c := Z.to_nat chunk_size in
    Ok (map (fun i => slice i (i + c) conversations) (range_step total_convs c)).

(** [safe_extract_content(parts)] *)
Definition safe_extract_content (parts : json) : result string :=
  ps <- iter parts ;;
  content_text <-
    foldM (fun content_text part =>
             if is_str part then Ok (content_text ++ [part])
             else if is_dict part then
               t <- get part "text" ;;
               if truthy t then
                 v <- getitem part "text" ;; Ok (content_text ++ [v])
               else Ok content_text
             else Ok content_text) ps [] ;;
  join content_text.

(** The body of the node loop of [extract_user_content]. *)
Definition user_content_of_node (messages : list string) (node : json)
  : result (list string) :=
  if negb (truthy node) then Ok messages else
  msg <- get node "message" ;;
  if negb (truthy msg) then Ok messages else
  author <- get_or msg "author" (JObj []) ;;
  if negb (truthy author) then Ok messages else
  role <- get author "role" ;;
  if eq_str role "user" then
    content <- get_or msg "content" (JObj []) ;;
    parts <- get_or content "parts" (JArr []) ;;
    if truthy parts then
      content_text <- safe_extract_content parts ;;
      if negb (String.eqb content_text "") && (50 <? String.length content_text)
      then Ok (messages ++ [content_text])
      else Ok messages
    else Ok messages
  else Ok messages.

(** [extract_user_content(conversation)] *)
Definition extract_user_content (conversation : json) : result (list string) :=
  mapping <- get_or conversation "mapping" (JObj []) ;;
  nodes <- items mapping ;;
  foldM (fun messages kv => user_content_of_node messages (snd kv)) nodes [].

(** [contains_pattern(text, patterns)] *)
Definition contains_pattern (text : string) (patterns : list string) : bool :=
  let text_lower := lower text in
  existsb (fun pattern => contains pattern text_lower) patterns.

Definition unique_patterns : list string :=
  [ "upstream\s+\w+";
    "recursive\s+\w+";
    "modular\s+\w+";
    "compress\s+\w+";
    "\w+\s+as\s+(?:a\s+)?(?:lever|architecture|dimension)";
    "(?:build|create)\s+(?:the|a)\s+\w+\s+(?:that|which)";
    "data\s+exhaust";
    "temporal\s+\w+";
    "delegation\s+(?:is|as)";
    "(?:zero|no)\s+\w+\s+(?:cost|friction|waste)" ].

(** [extract_unique_terms(text)] *)
Definition extract_unique_terms (text : string) : result (list string) :=
  foldM (fun found_terms pattern =>
           r <- Re.compiled pattern ;;
           Ok (found_terms ++ Re.findall Re.I r text))
        unique_patterns [].

(** One entry of a [chunk_patterns] list. *)
Record entry : Type :=
  { content : string; title : json; timestamp : json }.

(** The two attributes of the processor that the run fills:
    [global_patterns], a [defaultdict(list)], and [unique_phrases], a
    [Counter]; both in insertion order. *)
Record state : Type :=
  { global_patterns : list (string * list entry);
    unique_phrases : list (string * nat) }.

Definition init : state := {| global_patterns := []; unique_phrases := [] |}.

(** Methods run against the processor: they return or raise, and what they
    wrote into the processor before raising stays written. *)
Definition M (A : Type) : Type := state -> result A * state.

Definition ret {A} (a : A) : M A := fun self => (Ok a, self).

Definition lift {A} (r : result A) : M A := fun self => (r, self).

Definition bindM {A B} (m : M A) (f : A -> M B) : M B :=
  fun self =>
    match m self with
    | (Ok a, self') => f a self'
    | (Raise e, self') => (Raise e, self')
    end.

Fixpoint forM {A B} (xs : list A) (body : B -> A -> M B) (acc : B) : M B :=
  match xs with
  | [] => ret acc
  | x :: rest => bindM (body acc x) (forM rest body)
  end.

Definition count_phrase (term : string) : M unit :=
  fun self =>
    (Ok tt, {| global_patterns := global_patterns self;
               unique_phrases := bump term (unique_phrases self) |}).

Definition store (category : string) (found : list entry) : M unit :=
  fun self =>
    (Ok tt, {| global_patterns := extend_at category found (global_patterns self);
               unique_phrases := unique_phrases self |}).

(** The local dict [chunk_patterns] of [process_chunk]. *)
Definition chunk_patterns_0 : list (string * list entry) :=
  [ ("cognitive_strategies", []);
    ("problem_solving", []);
    ("automation_mindset", []);
    ("unique_terminology", []) ].

(** The body of [for msg in user_messages]. *)
Definition process_message (title timestamp : json)
    (chunk_patterns : list (string * list entry)) (msg : string)
  : M (list (string * list entry)) :=
  let found := {| content := take 300 msg; title := title; timestamp := timestamp |} in
  let cp1 :=
    if contains_pattern msg ["recursive"; "upstream"; "downstream"; "compress"; "abstract"]
    then extend_at "cognitive_strategies" [found] chunk_patterns
    else chunk_patterns in
  let cp2 :=
    if contains_pattern msg ["automat"; "system"; "workflow"; "process"; "scale"]
    then extend_at "problem_solving" [found] cp1
    else cp1 in
  bindM (lift (extract_unique_terms msg)) (fun unique_terms =>
  bindM (forM unique_terms (fun _ term => count_phrase term) tt) (fun _ =>
  ret cp2)).

(** The body of [for conv in conversations]. *)
Definition process_conversation (chunk_patterns : list (string * list entry))
    (conv : json) : M (list (string * list entry)) :=
  bindM (lift (get_or conv "title" (JStr "Untitled"))) (fun title =>
  bindM (lift (get_or conv "create_time" (JNum 0))) (fun timestamp =>
  bindM (lift (extract_user_content conv)) (fun user_messages =>
  forM user_messages (process_message title timestamp) chunk_patterns))).

(** [process_chunk(conversations, chunk_idx)] *)
Definition process_chunk (conversations : list json) (chunk_idx : nat) : M unit :=
  bindM (forM conversations process_conversation chunk_patterns_0)
    (fun chunk_patterns =>
       forM chunk_patterns (fun _ kv => store (fst kv) (snd kv)) tt).

(** [for idx, chunk in enumerate(chunks): self.process_chunk(chunk, idx)] *)
Fixpoint process_chunks (idx : nat) (chunks : list (list json)) : M unit :=
  match chunks with
  | [] => ret tt
  | chunk :: rest =>
      bindM (process_chunk chunk idx) (fun _ => process_chunks (S idx) rest)
  end.

(** [group_by_similarity(items)]: the first branch that applies takes the
    item; empty groups are left out of the result. *)
Definition group_of (item : entry) : string :=
  let c := lower (content item) in
  if contains "recursive" c || contains "loop" c then "Recursive Thinking"
  else if contains "upstream" c || contains "downstream" c then "Upstream Logic"
  else if contains "compress" c || contains "abstract" c then "Compression & Abstraction"
  else if contains "system" c || contains "architect" c then "System Architecture"
  else "Other".

Definition group_names : list string :=
  [ "Recursive Thinking"; "Upstream Logic"; "Compression & Abstraction";
    "System Architecture"; "Other" ].

Definition group_by_similarity (found : list entry) : list (string * list entry) :=
  filter (fun g => match snd g with [] => false | _ => true end)
    (map (fun name =>
            (name, filter (fun item => String.eqb (group_of item) name) found))
         group_names).

(** [extract_problem_solving_approaches(patterns)] *)
Definition approach_of (item : entry) : option string :=
  let c := lower (content item) in
  if contains "automat" c then Some "Automation-First"
  else if contains "data" c || contains "metric" c then Some "Data-Driven"
  else if contains "system" c || contains "ecosystem" c then Some "System Thinking"
  else if contains "iterat" c || contains "refin" c then Some "Iterative Refinement"
  else None.

Definition approach_names : list string :=
  [ "Automation-First"; "Data-Driven"; "System Thinking"; "Iterative Refinement" ].

Definition extract_problem_solving_approaches (patterns : list entry)
  : list (string * list string) :=
  filter (fun g => match snd g with [] => false | _ => true end)
    (map (fun name =>
            (name,
             map (fun item => (take 150 (content item) ++ "...")%string)
               (filter (fun item =>
                          match approach_of item with
                          | Some a => String.eqb a name
                          | None => false
                          end) patterns)))
         approach_names).

(** [Counter.most_common(n)]: by count, largest first, equal counts in
    insertion order. *)
Fixpoint insert_by_count (x : string * nat) (sorted : list (string * nat))
  : list (string * nat) :=
  match sorted with
  | [] => [x]
  | y :: rest =>
      if snd y <? snd x then x :: sorted else y :: insert_by_count x rest
  end.

Definition most_common (n : nat) (counter : list (string * nat))
  : list (string * nat) :=
  firstn n (fold_left (fun sorted x => insert_by_count x sorted) counter []).

(** What [consolidate_findings] writes that depends on the run (the fixed
    prose of the Markdown file and the date are left out): the pattern
    count of the header, the examples written under each group of section
    1, the recurring terms of section 2, the examples under each approach
    of section 3, and the count again in the last line. *)
Record findings : Type :=
  { processed : nat;
    strategies : list (string * list string);
    terms : list (string * nat);
    approaches : list (string * list string);
    analyzed : nat }.

Section Output.

(** Whether [open(output_path, 'w')] succeeds on the machine.  The path is
    absolute and hard-coded; where its directory is missing or cannot be
    written to, [open] raises [OSError] ([FileNotFoundError],
    [PermissionError]). *)
Variable output_opens : bool.

(** [consolidate_findings()].  Nothing is done before the file is open.
    Reading [self.global_patterns['cognitive_strategies']] and
    [self.global_patterns['problem_solving']] on the [defaultdict] adds the
    key with an empty list when it is missing. *)
Definition consolidate_findings : M findings :=
  fun self =>
    if negb output_opens then (Raise OSError, self) else
    let gp := global_patterns self in
    let processed := list_sum (map (fun kv => length (snd kv)) gp) in
    let gp1 := extend_at "cognitive_strategies" [] gp in
    let strategies := lookup_list "cognitive_strategies" gp1 in
    let top_terms := most_common 30 (unique_phrases self) in
    let gp2 := extend_at "problem_solving" [] gp1 in
    let ps_patterns := lookup_list "problem_solving" gp2 in
    (Ok {| processed := processed;
           strategies :=
             map (fun g => (fst g, map content (firstn 3 (snd g))))
               (group_by_similarity (firstn 50 strategies));
           terms := filter (fun tc => 2 <? snd tc) top_terms;
           approaches :=
             map (fun g => (fst g, firstn 2 (snd g)))
               (extract_problem_solving_approaches (firstn 50 ps_patterns));
           analyzed := list_sum (map (fun kv => length (snd kv)) gp2) |},
     {| global_patterns := gp2; unique_phrases := unique_phrases self |}).

(** [process_all_chunks()], on the list [json.load] returned. *)
Definition process_all_chunks (conversations : list json) (chunk_size : Z)
  : M findings :=
  bindM (lift (chunks conversations chunk_size)) (fun chunks =>
  bindM (process_chunks 0 chunks) (fun _ =>
  consolidate_findings)).

End Output.

End ChunkProcessor.

(* ===================================================================== *)
(** ** chatgpt-analyzer.py *)
(* ===================================================================== *)

Module ConversationAnalyzer.

Record message : Type :=
  { role : json; content : string; timestamp : json; node_id : string }.

Record tally : Type :=
  { pattern_counts : list (string * nat);
    pattern_examples : list (string * list string) }.

(** The table [patterns] of [extract_thinking_patterns]. *)
Definition patterns : list (string * string) :=
  [ ("recursive_thinking", "recurs\w+|loop|iterate|feedback");
    ("upstream_logic", "upstream|downstream|root cause|first principle");
    ("modular_design", "modular|component|building block|compose");
    ("compression", "compress|simplif|abstract|distill");
    ("system_thinking", "system|holistic|interconnect|ecosystem");
    ("data_driven", "data|metric|measure|track|analyz") ].

(** The body of [for pattern_name, pattern_regex in patterns.items()];
    reading [pattern_examples[pattern_name]] creates the key. *)
Definition scan_pattern (content : string) (t : tally) (p : string * string)
  : result tally :=
  r <- Re.compiled (snd p) ;;
  match Re.search Re.I r content with
  | Some _ =>
      let examples := extend_at (fst p) [] (pattern_examples t) in
      Ok {| pattern_counts := bump (fst p) (pattern_counts t);
            pattern_examples :=
              if length (lookup_list (fst p) examples) <? 3
              then extend_at (fst p) [(take 300 content ++ "...")%string] examples
              else examples |}
  | None => Ok t
  end.

Section WithStr.

(** How [str] prints a value that is not a string. *)
Variable repr : json -> string.

(** The body of [for part in parts]. *)
Definition add_part (content_text : list json) (part : json)
  : result (list json) :=
  if is_str part then Ok (content_text ++ [part])
  else if is_dict part then
    t <- get part "text" ;;
    if truthy t then
      v <- getitem part "text" ;; Ok (content_text ++ [v])
    else
      c <- get part "content" ;;
      if truthy c then
        v <- getitem part "content" ;;
        Ok (content_text ++ [JStr (str_with repr v)])
      else Ok content_text
  else Ok content_text.

(** What the body of the node loop of [extract_messages] appends.  The
    items of the dict literal are evaluated in the order written: the role
    first, then the joined text, then the time. *)
Definition message_of_node (node_id : string) (node : json)
  : result (option message) :=
  m <- get node "message" ;;
  if negb (truthy m) then Ok None else
  msg <- getitem node "message" ;;
  c <- get msg "content" ;;
  has_parts <-
    (if truthy c then
       c1 <- getitem msg "content" ;; p <- get c1 "parts" ;; Ok (truthy p)
     else Ok false) ;;
  if negb has_parts then Ok None else
  c2 <- getitem msg "content" ;;
  parts <- getitem c2 "parts" ;;
  ps <- iter parts ;;
  content_text <- foldM add_part ps [] ;;
  match content_text with
  | [] => Ok None
  | _ :: _ =>
      author <- getitem msg "author" ;;
      role <- getitem author "role" ;;
      text <- join content_text ;;
      time <- get msg "create_time" ;;
      Ok (Some {| role := role; content := text; timestamp := time;
                  node_id := node_id |})
  end.

(** [extract_messages(conversation)] *)
Definition extract_messages (conversation : json) : result (list message) :=
  mapping <- get_or conversation "mapping" (JObj []) ;;
  nodes <- items mapping ;;
  collect (fun kv => message_of_node (fst kv) (snd kv)) nodes [].

(** The counting loops of [extract_thinking_patterns]. *)
Definition extract_thinking_patterns (conversations : list json) : result tally :=
  foldM (fun t conv =>
           messages <- extract_messages conv ;;
           foldM (fun t msg =>
                    if eq_str (role msg) "user"
                    then foldM (scan_pattern (content msg)) patterns t
                    else Ok t)
                 messages t)
        conversations
        {| pattern_counts := []; pattern_examples := [] |}.

End WithStr.

(** How a call of [analyze_conversation_metadata] ends: besides the
    exceptions of the loop there is the division by the number of
    conversations. *)
Inductive outcome (A : Type) : Type :=
| Returned (a : A)
| Raised (e : exn)
| ZeroDivisionError.
Arguments Returned {A} a.
Arguments Raised {A} e.
Arguments ZeroDivisionError {A}.

(** The three accumulators of [analyze_conversation_metadata]. *)
Record metadata : Type :=
  { total_messages : nat; date_range : list json; titles : list json }.

Section Metadata.

Variable repr : json -> string.

(** What [datetime.fromtimestamp] of [min] and [max] of a non-empty
    [date_range], and printing the two days, come to: nothing, or the
    exception raised there. *)
Variable print_date_range : list json -> result unit.

(** The body of [for conv in self.conversations]. *)
Definition add_metadata (acc : metadata) (conv : json) : result metadata :=
  title <- get_or conv "title" (JStr "Untitled") ;;
  create_time <- get conv "create_time" ;;
  messages <- extract_messages repr conv ;;
  Ok {| total_messages := total_messages acc + length messages;
        date_range := if truthy create_time
                      then date_range acc ++ [create_time]
                      else date_range acc;
        titles := titles acc ++ [title] |}.

(** [analyze_conversation_metadata()]: the titles it returns. *)
Definition analyze_conversation_metadata (conversations : list json)
  : outcome (list json) :=
  match foldM add_metadata conversations
              {| total_messages := 0; date_range := []; titles := [] |} with
  | Raise e => Raised e
  | Ok acc =>
      match (match date_range acc with
             | [] => Ok tt
             | _ :: _ => print_date_range (date_range acc)
             end) with
      | Raise e => Raised e
      | Ok _ =>
          if length conversations =? 0 then ZeroDivisionError
          else Returned (titles acc)
      end
  end.

End Metadata.

End ConversationAnalyzer.

(* ===================================================================== *)
(** ** chatgpt-deep-analyzer.py *)
(* ===================================================================== *)

Module DeepConversationAnalyzer.

Record user_message : Type :=
  { content : string; timestamp : json; node_id : string }.


(** The table [unique_patterns] of [identify_unique_concepts]: concept,
    patterns, weight. *)
Definition unique_patterns : list (string * (list string * nat)) :=
  [ ("recursive_systems",
     ([ "recursive\s+(?:thinking|logic|loop|system)";
        "feedback\s+loop";
        "self-referential";
        "meta-(?:cognitive|level|layer)" ], 3));
    ("upstream_compression",
     ([ "upstream\s+(?:thinking|logic|compression|design)";
        "root\s+cause";
        "first\s+principle";
        "compress\s+(?:decisions|logic|information)" ], 3));
    ("modular_architecture",
     ([ "modular\s+(?:design|thinking|system|architecture)";
        "component(?:ized|s)";
        "building\s+block";
        "(?:de)?compose" ], 2));
    ("temporal_abstraction",
     ([ "temporal\s+(?:abstraction|layer|compression)";
        "time\s+(?:as|is)\s+(?:a\s+)?(?:lever|tool|dimension)";
        "future\s+self";
        "bypass\s+(?:building|creating)" ], 4));
    ("delegation_as_survival",
     ([ "delegation\s+(?:is|as)\s+(?:a\s+)?survival";
        "learned\s+(?:to\s+)?(?:delegate|live)";
        "never\s+had\s+help";
        "do\s+things\s+on\s+my\s+own" ], 3));
    ("data_exhaust_mining",
     ([ "data\s+exhaust";
        "passive\s+(?:data\s+)?(?:capture|collection)";
        "nothing\s+is\s+wasted";
        "structured\s+(?:data\s+)?capture" ], 4)) ].




Section WithStr.

(** How [str] prints a value that is not a string. *)
Variable repr : json -> string.

(** [safe_extract_content(parts)] *)
Definition safe_extract_content (parts : json) : result string :=
  ps <- iter parts ;;
  content_text <- foldM (ConversationAnalyzer.add_part repr) ps [] ;;
  join content_text.

(** What the body of the node loop of [extract_user_messages] appends. *)
Definition message_of_node (node_id : string) (node : json)
  : result (option user_message) :=
  if negb (truthy node) then Ok None else
  msg <- get node "message" ;;
  if negb (truthy msg) then Ok None else
  author <- get_or msg "author" (JObj []) ;;
  if negb (truthy author) then Ok None else
  role <- get author "role" ;;
  if negb (eq_str role "user") then Ok None else
  content <- get_or msg "content" (JObj []) ;;
  parts <- get_or content "parts" (JArr []) ;;
  if negb (truthy parts) then Ok None else
  content_text <- safe_extract_content parts ;;
  if negb (String.eqb content_text "") && (50 <? String.length content_text)
  then
    time <- get msg "create_time" ;;
    Ok (Some {| content := content_text; timestamp := time; node_id := node_id |})
  else Ok None.



End WithStr.

End DeepConversationAnalyzer.

(* ===================================================================== *)
(** ** The part loop shared by the later scripts *)
(* ===================================================================== *)

Module Parts.

(** [for part in parts]: a string part is kept, a dict part gives its
    ['text'] when that is truthy, anything else is passed over. *)
Definition add_part (text_content : list json) (part : json)
  : result (list json) :=
  if is_str part then Ok (text_content ++ [part])
  else if is_dict part then
    t <- get part "text" ;;
    if truthy t then
      v <- getitem part "text" ;; Ok (text_content ++ [v])
    else Ok text_content
  else Ok text_content.

(** The loop followed by [' '.join(...)]. *)
Definition flatten (parts : json) : result string :=
  ps <- iter parts ;;
  text_content <- foldM add_part ps [] ;;
  join text_content.

End Parts.

(* ===================================================================== *)
(** ** mike-deep-dive-analyzer.py *)
(* ===================================================================== *)

Module DeepDiveAnalyzer.

Record flow_message : Type :=
  { role : json; content : string; depth : nat; timestamp : json }.

(** The dict [extract_full_conversation] returns. *)
Record flow : Type :=
  { f_title : json;
    f_timestamp : json;
    messages : list flow_message;
    total_messages : nat }.

(** The keys of [nodes_by_parent]: what a ['parent'] field can hash to.
    [True] and [False] hash and compare as 1 and 0. *)
Inductive key : Type :=
| KNone
| KNum (q : Q)
| KStr (s : string).

Definition hash_key (v : json) : result key :=
  match v with
  | JNull => Ok KNone
  | JBool b => Ok (KNum (if b then 1 else 0))
  | JNum q => Ok (KNum q)
  | JStr s => Ok (KStr s)
  | JArr _ => Raise TypeError
  | JObj _ => Raise TypeError
  end.

Definition key_eqb (a b : key) : bool :=
  match a, b with
  | KNone, KNone => true
  | KNum p, KNum q => Qeq_bool p q
  | KStr s, KStr t => String.eqb s t
  | _, _ => false
  end.

Definition index : Type := list (key * list (string * json)).

(** [nodes_by_parent[parent].append(item)] *)
Fixpoint append_child (parent : key) (item : string * json) (d : index) : index :=
  match d with
  | [] => [(parent, [item])]
  | (k, old) :: rest =>
      if key_eqb k parent then (k, old ++ [item]) :: rest
      else (k, old) :: append_child parent item rest
  end.

(** [nodes_by_parent.get(k, [])], and [nodes_by_parent[k]] read back. *)
Definition children (k : key) (d : index) : list (string * json) :=
  match find (fun kv => key_eqb (fst kv) k) d with
  | Some kv => snd kv
  | None => []
  end.

(** [n == item] for a str [n] and a tuple [item]: neither [str.__eq__] nor
    [tuple.__eq__] accepts the other type, so the comparison is [False]
    (and a str object is never the tuple object itself). *)
Definition str_eq_tuple (n : string) (item : string * json) : bool := false.

(** [n in bucket] for a str [n] and a list of [(node_id, node)] tuples. *)
Definition str_in_tuples (n : string) (bucket : list (string * json)) : bool :=
  existsb (str_eq_tuple n) bucket.

(** The nested function [traverse]; [fuel] is the recursion depth the
    interpreter still allows. *)
Fixpoint traverse (fuel : nat) (nodes_by_parent : index) (node_id : string)
    (depth : nat) (messages : list flow_message) : result (list flow_message) :=
  match fuel with
  | O => Raise RecursionError
  | S fuel' =>
      foldM (fun messages child =>
               let child_id := fst child in
               let child_node := snd child in
               msg <- get_or child_node "message" (JObj []) ;;
               author <- get_or msg "author" (JObj []) ;;
               role <- get_or author "role" (JStr "unknown") ;;
               content <- get_or msg "content" (JObj []) ;;
               parts <- get_or content "parts" (JArr []) ;;
               full_text <- Parts.flatten parts ;;
               messages' <-
                 (if negb (String.eqb full_text "") then
                    time <- get msg "create_time" ;;
                    Ok (messages ++ [ {| role := role; content := full_text;
                                         depth := depth; timestamp := time |} ])
                  else Ok messages) ;;
               traverse fuel' nodes_by_parent child_id (S depth) messages')
            (children (KStr node_id) nodes_by_parent) messages
  end.

(** The body of the first pass over [mapping.items()]. *)
Definition organize (nodes_by_parent : index) (item : string * json)
  : result index :=
  let node := snd item in
  has_message <-
    (if truthy node then m <- get node "message" ;; Ok (truthy m)
     else Ok false) ;;
  if has_message then
    parent <- get node "parent" ;;
    k <- hash_key parent ;;
    Ok (append_child k item nodes_by_parent)
  else Ok nodes_by_parent.

(** [root_nodes = [n for n in mapping.keys() if n in nodes_by_parent[None]]] *)
Definition root_nodes (node_ids : list string) (nodes_by_parent : index)
  : list string :=
  filter (fun n => str_in_tuples n (children KNone nodes_by_parent)) node_ids.

(** [extract_full_conversation(conv)] *)
Definition extract_full_conversation (fuel : nat) (conv : json) : result flow :=
  mapping <- get_or conv "mapping" (JObj []) ;;
  title <- get_or conv "title" (JStr "Unknown") ;;
  timestamp <- get_or conv "create_time" (JNum 0) ;;
  nodes <- items mapping ;;
  nodes_by_parent <- foldM organize nodes [] ;;
  node_ids <- keys mapping ;;
  messages <-
    foldM (fun messages root => traverse fuel nodes_by_parent root 0 messages)
          (root_nodes node_ids nodes_by_parent) [] ;;
  Ok {| f_title := title; f_timestamp := timestamp; messages := messages;
        total_messages := length messages |}.

(** One entry of [conversation_types]. *)
Record typed_conversation : Type :=
  { t_title : json; first_message : string; t_length : nat;
    t_timestamp : json }.

(** The [patterns] of [analyze_conversation_patterns], in the order the
    dict is written. *)
Definition patterns : list (string * list string) :=
  [ ("problem_solving",
     ["how do i"; "need to"; "trying to"; "issue is"; "problem is"]);
    ("learning",
     ["understand"; "learn"; "figure out"; "how does"; "what is"]);
    ("building", ["build"; "create"; "make"; "implement"; "set up"]);
    ("philosophical",
     ["think about"; "believe"; "feel like"; "the way i see";
      "to be honest"]);
    ("clarification",
     ["what i mean"; "let me explain"; "basically"; "in other words"]) ].

(** [conversation_types] before the loop. *)
Definition conversation_types_0 : list (string * list typed_conversation) :=
  [ ("problem_solving", []); ("learning", []); ("building", []);
    ("philosophical", []); ("clarification", []) ].

(** The body of [for idx, conv in enumerate(self.conversations)]: the
    conversation goes under the first type one of whose keywords its first
    user message holds ([break]). *)
Definition analyze_conversation (fuel : nat)
    (conversation_types : list (string * list typed_conversation))
    (conv : json) : result (list (string * list typed_conversation)) :=
  full_conv <- extract_full_conversation fuel conv ;;
  let user_messages :=
    filter (fun m => eq_str (role m) "user") (messages full_conv) in
  match user_messages with
  | [] => Ok conversation_types
  | first :: _ =>
      let first_msg := lower (content first) in
      match find (fun kv => existsb (fun kw => contains kw first_msg) (snd kv))
                 patterns with
      | Some (conv_type, _) =>
          Ok (extend_at conv_type
                [ {| t_title := f_title full_conv;
                     first_message := take 200 first_msg;
                     t_length := length user_messages;
                     t_timestamp := f_timestamp full_conv |} ]
                conversation_types)
      | None => Ok conversation_types
      end
  end.

(** [analyze_conversation_patterns()]: the [conversation_types] it
    reports on. *)
Definition analyze_conversation_patterns (fuel : nat)
    (conversations : list json)
  : result (list (string * list typed_conversation)) :=
  foldM (analyze_conversation fuel) conversations conversation_types_0.

End DeepDiveAnalyzer.

(* ===================================================================== *)
(** ** mike-real-analysis.py *)
(* ===================================================================== *)

Module RealAnalyzer.

Record mike_message : Type :=
  { content : string; timestamp : json; parent : json }.

(** What the body of the node loop of [extract_mike_messages] appends. *)
Definition message_of_node (node : json) : result (option mike_message) :=
  if negb (truthy node) then Ok None else
  m <- get node "message" ;;
  if negb (truthy m) then Ok None else
  msg <- getitem node "message" ;;
  author <- get_or msg "author" (JObj []) ;;
  role <- get author "role" ;;
  if negb (eq_str role "user") then Ok None else
  content <- get_or msg "content" (JObj []) ;;
  parts <- get_or content "parts" (JArr []) ;;
  full_text <- Parts.flatten parts ;;
  if negb (String.eqb full_text "") && (20 <? String.length full_text) then
    time <- get msg "create_time" ;;
    parent <- get node "parent" ;;
    Ok (Some {| content := full_text; timestamp := time; parent := parent |})
  else Ok None.


(** One round of [for i in range(len(words)-2)] in [analyze_evolution]:
    the phrase is built first, then the two lengths are tested.  [None] is
    the [IndexError] of [words[i]] or [words[i+1]]. *)
Definition count_phrase_at (words : list string)
    (key_phrases : list (string * nat)) (i : nat)
  : option (list (string * nat)) :=
  match nth_error words i, nth_error words (i + 1) with
  | Some w, Some w' =>
      let phrase := (w ++ " " ++ w')%string in
      if (3 <? String.length w) && (3 <? String.length w')
      then Some (bump phrase key_phrases)
      else Some key_phrases
  | _, _ => None
  end.

Fixpoint count_phrases_at (words : list string) (indices : list nat)
    (key_phrases : list (string * nat)) : option (list (string * nat)) :=
  match indices with
  | [] => Some key_phrases
  | i :: rest =>
      match count_phrase_at words key_phrases i with
      | Some key_phrases' => count_phrases_at words rest key_phrases'
      | None => None
      end
  end.

(** The key-phrase loop of [analyze_evolution] on the words of one
    message ([content.lower().split()]). *)
Definition count_key_phrases (words : list string)
    (key_phrases : list (string * nat)) : option (list (string * nat)) :=
  count_phrases_at words (seq 0 (length words - 2)) key_phrases.

End RealAnalyzer.

(* ===================================================================== *)
(** ** mike-final-analyzer.py *)
(* ===================================================================== *)

Module FinalAnalyzer.

(** One entry of [all_mike_messages]. *)
Record mike_message : Type :=
  { content : string; title : json; timestamp : json; length : nat }.

(** What the body of the node loop of [load_and_extract_all] appends. *)
Definition message_of_node (title create_time : json) (node : json)
  : result (option mike_message) :=
  if negb (truthy node) then Ok None else
  msg <- get node "message" ;;
  if negb (truthy msg) then Ok None else
  author <- get_or msg "author" (JObj []) ;;
  role <- get author "role" ;;
  if negb (eq_str role "user") then Ok None else
  content <- get_or msg "content" (JObj []) ;;
  parts <- get_or content "parts" (JArr []) ;;
  joined <- Parts.flatten parts ;;
  let full_text := strip joined in
  if negb (String.eqb full_text "") && (20 <? String.length full_text) then
    time <- get_or msg "create_time" create_time ;;
    Ok (Some {| content := full_text; title := title; timestamp := time;
                length := String.length full_text |})
  else Ok None.

(** The body of [for idx, conv in enumerate(conversations)]. *)
Definition extract_conversation (all_mike_messages : list mike_message)
    (conv : json) : result (list mike_message) :=
  title <- get_or conv "title" (JStr "Unknown") ;;
  create_time <- get_or conv "create_time" (JNum 0) ;;
  mapping <- get_or conv "mapping" (JObj []) ;;
  nodes <- items mapping ;;
  collect (fun kv => message_of_node title create_time (snd kv)) nodes
    all_mike_messages.

(** [load_and_extract_all()], on the list [json.load] returned: the final
    [all_mike_messages]. *)
Definition load_and_extract_all (conversations : list json)
  : result (list mike_message) :=
  foldM extract_conversation conversations [].

(** One value of [monthly_data] (its ['avg_length'] stays 0 and is left
    out). *)
Record month_data : Type :=
  { month_messages : list mike_message;
    key_topics : list (string * nat) }.

(** [monthly_data[month]] updated in place; a new month is added at the
    end with an empty record. *)
Fixpoint update_month (month : string) (f : month_data -> month_data)
    (d : list (string * month_data)) : list (string * month_data) :=
  match d with
  | [] => [(month, f {| month_messages := []; key_topics := [] |})]
  | (k, v) :: rest =>
      if String.eqb k month then (k, f v) :: rest
      else (k, v) :: update_month month f rest
  end.

(** The topics one message counts for. *)
Definition topics_of (content : string) : list string :=
  (if contains "automat" content then ["automation"] else [])
  ++ (if contains "build" content then ["building"] else [])
  ++ (if contains "learn" content then ["learning"] else [])
  ++ (if contains "system" content || contains "clubos" content
      then ["systems"] else []).

(** The patterns of [find_unique_insights]. *)
Definition insight_patterns : list string :=
  [ "realized (?:that )?(.{20,100})";
    "the (?:thing|point|idea) is (.{20,100})";
    "what (?:i've|we've) learned (.{20,100})";
    "turns out (.{20,100})";
    "(?:basically|essentially) (.{20,100})";
    "the way i see it (.{20,100})" ].

(** One entry of [insights]. *)
Record found_insight : Type :=
  { insight : string; i_title : json; i_timestamp : json }.

(** [match.group(1) if match.lastindex else match.group(0)], stripped; a
    group that took no part is [None], which has no [strip]. *)
Definition insight_text (content : string) (m : Re.rmatch) : result string :=
  match Re.lastindex m with
  | Some (S _) =>
      match Re.group 1 m with
      | Some g => Ok (strip g)
      | None => Raise AttributeError
      end
  | _ => Ok (strip (Re.group0 content m))
  end.

(** The first loop of [find_unique_insights]: [insights]. *)
Definition collect_insights (all_mike_messages : list mike_message)
  : result (list found_insight) :=
  foldM (fun insights msg =>
           foldM (fun insights pattern =>
                    r <- Re.compiled pattern ;;
                    foldM (fun insights m =>
                             text <- insight_text (content msg) m ;;
                             Ok (insights ++
                                 [ {| insight := text; i_title := title msg;
                                      i_timestamp := timestamp msg |} ]))
                          (Re.finditer Re.I r (content msg)) insights)
                 insight_patterns insights)
        all_mike_messages [].

(** The second loop: the items printed, with the set [seen]. *)
Fixpoint show_unique (items : list found_insight) (seen : list string)
  : list found_insight :=
  match items with
  | [] => []
  | item :: rest =>
      let key := lower (insight item) in
      if negb (existsb (String.eqb key) seen) && (30 <? String.length key)
      then item :: show_unique rest (key :: seen)
      else show_unique rest seen
  end.

(** [find_unique_insights()]: what it prints under KEY INSIGHTS. *)
Definition find_unique_insights (all_mike_messages : list mike_message)
  : result (list found_insight) :=
  insights <- collect_insights all_mike_messages ;;
  Ok (show_unique (firstn 30 insights) []).

Section Calendar.

(** [datetime.fromtimestamp(t).strftime('%Y-%m')]: the month of [t] in the
    time zone of the machine, or the exception [fromtimestamp] raises on a
    time it cannot represent ([ValueError] for a year outside 1 to 9999,
    [OverflowError] or [OSError] beyond the range of the platform). *)
Variable local_month : Q -> result string.

(** [fromtimestamp] wants a number ([True] and [False] are 1 and 0). *)
Definition month_of (time : json) : result string :=
  match time with
  | JNum q => local_month q
  | JBool b => local_month (if b then 1 else 0)
  | _ => Raise TypeError
  end.

(** The body of [for msg in self.all_mike_messages] in [track_evolution]. *)
Definition track_message (monthly_data : list (string * month_data))
    (msg : mike_message) : result (list (string * month_data)) :=
  if truthy (timestamp msg) then
    month <- month_of (timestamp msg) ;;
    Ok (update_month month
          (fun data =>
             {| month_messages := month_messages data ++ [msg];
                key_topics :=
                  fold_left (fun counter topic => bump topic counter)
                    (topics_of (lower (content msg))) (key_topics data) |})
          monthly_data)
  else Ok monthly_data.

(** The grouping loop of [track_evolution]: [monthly_data]. *)
Definition track_evolution (all_mike_messages : list mike_message)
  : result (list (string * month_data)) :=
  foldM track_message all_mike_messages [].

End Calendar.

(** The numbers a month is reported with: message count and total of the
    recorded lengths. *)
Definition message_count (data : month_data) : nat :=
  List.length (month_messages data).
Definition total_length (data : month_data) : nat :=
  list_sum (map length (month_messages data)).

End FinalAnalyzer.

(* ===================================================================== *)
(** ** mike-decision-tree-extractor.py *)
(* ===================================================================== *)

Module DecisionTreeExtractor.

(** [extract_message_content(parts)] *)
Definition extract_message_content (parts : json) : result string :=
  Parts.flatten parts.

(** One entry of [decision_patterns]. *)
Record decision : Type :=
  { type_ : string; condition : string; action : string;
    full_context : string; title : json }.

(** One entry of [if_then_patterns]. *)
Record if_then : Type :=
  { if_ : string; then_ : string; else_ : option string; context : string }.

Definition decision_indicators : list (string * list string) :=
  [ ("condition_action",
     [ "if (.+?)[,\.]?\s*(?:then\s+)?(.+?)(?:\.|$)";
       "when (.+?)[,\.]?\s*(?:i|we|you)\s+(.+?)(?:\.|$)";
       "(?:every time|whenever) (.+?)[,\.]?\s*(?:i|we)\s+(.+?)(?:\.|$)" ]);
    ("problem_solution",
     [ "(?:the problem is|issue is) (.+?)[,\.]?\s*so (.+?)(?:\.|$)";
       "(.+?) (?:sucks|is broken)[,\.]?\s*so (.+?)(?:\.|$)";
       "(?:need to|have to) (.+?) (?:because|since) (.+?)(?:\.|$)" ]);
    ("choice_reasoning",
     [ "(?:chose|picked|went with) (.+?) (?:because|since) (.+?)(?:\.|$)";
       "instead of (.+?)[,\.]?\s*(?:i|we) (.+?)(?:\.|$)";
       "(.+?) (?:makes sense|works better) because (.+?)(?:\.|$)" ]) ].

Definition if_then_patterns : list string :=
  [ "if (?:you|we|i) (.+?), (?:then\s+)?(.+?)(?:\.|$)";
    "when (.+?), (.+?)(?:\.|$)";
    "(?:anytime|whenever) (.+?), (.+?)(?:\.|$)";
    "(.+?) \? (.+?) : (.+?)(?:\.|$)" ].

(** [match.lastindex >= n]: comparing [None] with a number is a
    [TypeError]. *)
Definition lastindex_ge (m : Re.rmatch) (n : nat) : result bool :=
  match Re.lastindex m with
  | Some i => Ok (n <=? i)
  | None => Raise TypeError
  end.

(** [match.group(i).strip()] *)
Definition group_strip (i : nat) (m : Re.rmatch) : result string :=
  match Re.group i m with
  | Some g => Ok (strip g)
  | None => Raise AttributeError
  end.

(** The user text of a node, when the node loops get that far. *)
Definition user_text (node : json) : result (option string) :=
  if negb (truthy node) then Ok None else
  msg <- get node "message" ;;
  if negb (truthy msg) then Ok None else
  author <- get_or msg "author" (JObj []) ;;
  role <- get author "role" ;;
  if negb (eq_str role "user") then Ok None else
  content <- get_or msg "content" (JObj []) ;;
  parts <- get_or content "parts" (JArr []) ;;
  text <- extract_message_content parts ;;
  Ok (Some text).

(** The body of [for match in matches] in [extract_decision_patterns]. *)
Definition record_decision (pattern_type text : string) (title : json)
    (found : list decision) (m : Re.rmatch) : result (list decision) :=
  enough <- lastindex_ge m 2 ;;
  if enough then
    condition <- group_strip 1 m ;;
    action <- group_strip 2 m ;;
    Ok (found ++ [ {| type_ := pattern_type; condition := condition;
                      action := action; full_context := take 500 text;
                      title := title |} ])
  else Ok found.

(** [extract_decision_patterns()]: the final [decision_patterns]. *)
Definition extract_decision_patterns (conversations : list json)
  : result (list decision) :=
  foldM (fun found conv =>
           mapping <- get_or conv "mapping" (JObj []) ;;
           title <- get_or conv "title" (JStr "Unknown") ;;
           nodes <- items mapping ;;
           foldM (fun found kv =>
                    t <- user_text (snd kv) ;;
                    match t with
                    | Some text =>
                        if negb (String.eqb text "") && (50 <? String.length text)
                        then
                          foldM (fun found indicator =>
                                   foldM (fun found pattern =>
                                            r <- Re.compiled pattern ;;
                                            foldM (record_decision (fst indicator) text title)
                                                  (Re.finditer Re.I_S r text) found)
                                         (snd indicator) found)
                                decision_indicators found
                        else Ok found
                    | None => Ok found
                    end)
                 nodes found)
        conversations [].

(** The body of [for match in matches] in [extract_if_then_logic]. *)
Definition record_if_then (text : string) (found : list if_then)
    (m : Re.rmatch) : result (list if_then) :=
  enough <- lastindex_ge m 2 ;;
  if enough then
    condition <- group_strip 1 m ;;
    then_action <- group_strip 2 m ;;
    has_else <- lastindex_ge m 3 ;;
    else_action <-
      (if has_else then g <- group_strip 3 m ;; Ok (Some g) else Ok None) ;;
    Ok (found ++ [ {| if_ := condition; then_ := then_action;
                      else_ := else_action; context := take 200 text |} ])
  else Ok found.

(** [extract_if_then_logic()]: the final [if_then_patterns] list. *)
Definition extract_if_then_logic (conversations : list json)
  : result (list if_then) :=
  foldM (fun found conv =>
           mapping <- get_or conv "mapping" (JObj []) ;;
           nodes <- items mapping ;;
           foldM (fun found kv =>
                    t <- user_text (snd kv) ;;
                    match t with
                    | Some text =>
                        foldM (fun found pattern =>
                                 r <- Re.compiled pattern ;;
                                 foldM (record_if_then text)
                                       (Re.finditer Re.I r text) found)
                              if_then_patterns found
                    | None => Ok found
                    end)
                 nodes found)
        (firstn 200 conversations) [].

(** One entry of the [messages] list of [extract_problem_solutions]. *)
Record flow_message : Type :=
  { role : json; content : string; timestamp : json }.

(** One entry of [problem_solution_pairs]. *)
Record problem_solution : Type :=
  { problem : string; solution : string; pair_title : json }.

Definition problem_indicators : list string :=
  [ "how do i"; "how can i"; "need to"; "trying to";
    "issue with"; "problem is"; "stuck on"; "help with" ].

Definition solution_indicators : list string :=
  [ "so i"; "decided to"; "went with";
    "ended up"; "solution was"; "fixed it by" ].

(** [any(indicator in text for indicator in indicators)] *)
Definition any_in (indicators : list string) (text : string) : bool :=
  existsb (fun indicator => contains indicator text) indicators.

(** The body of the node loop of [extract_problem_solutions]: what it
    appends to [messages], if anything. *)
Definition flow_message_of_node (node : json) : result (option flow_message) :=
  if negb (truthy node) then Ok None else
  msg <- get node "message" ;;
  if negb (truthy msg) then Ok None else
  author <- get_or msg "author" (JObj []) ;;
  role <- get author "role" ;;
  if eq_str role "user" || eq_str role "assistant" then
    content <- get_or msg "content" (JObj []) ;;
    parts <- get_or content "parts" (JArr []) ;;
    text <- extract_message_content parts ;;
    if negb (String.eqb text "") then
      timestamp <- get msg "create_time" ;;
      Ok (Some {| role := role; content := text; timestamp := timestamp |})
    else Ok None
  else Ok None.

(** [range(lo, hi)] *)
Definition range (lo hi : nat) : list nat := seq lo (hi - lo).

(** [for j in range(...)]: the first user message of the window that holds
    a solution indicator, cut at 300 characters; the loop stops there
    ([break]).  The outer [None] is the [IndexError] of [messages[j]]. *)
Fixpoint find_solution (messages : list flow_message) (js : list nat)
  : option (option string) :=
  match js with
  | [] => Some None
  | j :: rest =>
      match nth_error messages j with
      | None => None
      | Some mj =>
          if eq_str (role mj) "user" then
            let solution_msg := content mj in
            if any_in solution_indicators (lower solution_msg)
            then Some (Some (take 300 solution_msg))
            else find_solution messages rest
          else find_solution messages rest
      end
  end.

(** One round of [for i in range(len(messages)-1)]; [None] is the
    [IndexError] of [messages[i]] or [messages[j]]. *)
Definition pair_at (title : json) (messages : list flow_message)
    (pairs : list problem_solution) (i : nat)
  : option (list problem_solution) :=
  match nth_error messages i with
  | None => None
  | Some mi =>
      if eq_str (role mi) "user" then
        let user_msg := lower (content mi) in
        if any_in problem_indicators user_msg then
          match find_solution messages
                  (range (i + 1) (Nat.min (i + 3) (List.length messages))) with
          | None => None
          | Some None => Some pairs
          | Some (Some solution_msg) =>
              Some (pairs ++ [ {| problem := take 300 (content mi);
                                  solution := solution_msg;
                                  pair_title := title |} ])
          end
        else Some pairs
      else Some pairs
  end.

(** [for i in range(len(messages)-1)], stopping at the first
    [IndexError]. *)
Fixpoint pairs_from (title : json) (messages : list flow_message)
    (indices : list nat) (pairs : list problem_solution)
  : option (list problem_solution) :=
  match indices with
  | [] => Some pairs
  | i :: rest =>
      match pair_at title messages pairs i with
      | Some pairs' => pairs_from title messages rest pairs'
      | None => None
      end
  end.

Definition flow_pairs (title : json) (messages : list flow_message)
    (pairs : list problem_solution) : option (list problem_solution) :=
  pairs_from title messages (range 0 (List.length messages - 1)) pairs.

(** The body of [for conv in self.conversations] in
    [extract_problem_solutions]. *)
Definition conversation_pairs (pairs : list problem_solution) (conv : json)
  : result (option (list problem_solution)) :=
  mapping <- get_or conv "mapping" (JObj []) ;;
  title <- get_or conv "title" (JStr "Unknown") ;;
  nodes <- items mapping ;;
  messages <- collect flow_message_of_node (map snd nodes) [] ;;
  Ok (flow_pairs title messages pairs).

Fixpoint problem_solution_pairs (conversations : list json)
    (pairs : list problem_solution)
  : result (option (list problem_solution)) :=
  match conversations with
  | [] => Ok (Some pairs)
  | conv :: rest =>
      found <- conversation_pairs pairs conv ;;
      match found with
      | Some pairs' => problem_solution_pairs rest pairs'
      | None => Ok None
      end
  end.

(** [categorize_problem(problem_text)] *)
Definition categorize_problem (problem_text : string) : string :=
  let problem_lower := lower problem_text in
  if contains "automat" problem_lower then "automation"
  else if contains "code" problem_lower || contains "program" problem_lower
  then "coding"
  else if contains "customer" problem_lower || contains "user" problem_lower
  then "customer_service"
  else if contains "database" problem_lower || contains "data" problem_lower
  then "data_management"
  else if contains "system" problem_lower || contains "architect" problem_lower
  then "system_design"
  else "general".

(** [for pair in problem_solution_pairs:
    self.problem_to_solution[problem_key].append(...)] *)
Definition group_pairs (pairs : list problem_solution)
    (problem_to_solution : list (string * list problem_solution))
  : list (string * list problem_solution) :=
  fold_left (fun d p => extend_at (categorize_problem (problem p)) [p] d)
            pairs problem_to_solution.

(** [extract_problem_solutions()]: the final [problem_to_solution], from the
    one the extractor holds.  [Raise] is an exception of the node loop,
    [Ok None] an [IndexError] of the flow loop. *)
Definition extract_problem_solutions (conversations : list json)
    (problem_to_solution : list (string * list problem_solution))
  : result (option (list (string * list problem_solution))) :=
  found <- problem_solution_pairs conversations [] ;;
  match found with
  | Some pairs => Ok (Some (group_pairs pairs problem_to_solution))
  | None => Ok None
  end.

End DecisionTreeExtractor.

(* ===================================================================== *)
(** ** A calendar to run the monthly grouping with *)
(* ===================================================================== *)

Module Utc.

(** Year and month of a day counted from 1970-01-01, in the proleptic
    Gregorian calendar (eras of 400 years starting on a 1st of March). *)
Definition year_month (days : Z) : Z * Z :=
  let z := (days + 719468)%Z in
  let era := (z / 146097)%Z in
  let doe := (z - era * 146097)%Z in
  let yoe := ((doe - doe / 1460 + doe / 36524 - doe / 146096) / 365)%Z in
  let doy := (doe - (365 * yoe + yoe / 4 - yoe / 100))%Z in
  let mp := ((5 * doy + 2) / 153)%Z in
  let m := (if mp <? 10 then mp + 3 else mp - 9)%Z in
  let y := (yoe + era * 400 + (if m <=? 2 then 1 else 0))%Z in
  (y, m).

Definition digit (n : Z) : string :=
  String (ascii_of_nat (48 + Z.to_nat (n mod 10))) EmptyString.

(** ['%Y-%m'] of a time stamp read in UTC, for the years 1000 to 9999. *)
Definition month (t : Q) : string :=
  let '(y, m) := year_month (Qfloor t / 86400) in
  (digit (y / 1000) ++ digit (y / 100) ++ digit (y / 10) ++ digit y
   ++ "-" ++ digit (m / 10) ++ digit m)%string.

(** A calendar to run the samples with, that of a machine on UTC: the
    month for the years 1000 to 9999, and for every other time the
    [ValueError] that [fromtimestamp] raises from the year 10000 on.  The
    theorems hold for any calendar. *)
Definition local_month (t : Q) : result string :=
  let '(y, _) := year_month (Qfloor t / 86400) in
  if ((1000 <=? y) && (y <=? 9999))%Z then Ok (month t) else Raise ValueError.

End Utc.

(* ===================================================================== *)
(** ** Sample exports *)
(* ===================================================================== *)

Module Samples.

(** A node holding a message with the given author role and one text part,
    and no [create_time] of its own. *)
Definition node_of (role text : string) : json :=
  JObj [("message",
         JObj [("author", JObj [("role", JStr role)]);
               ("content", JObj [("parts", JArr [JStr text])])])].

Definition conversation (title : string) (create_time : Q)
    (mapping : list (string * json)) : json :=
  JObj [("title", JStr title);
        ("create_time", JNum create_time);
        ("mapping", JObj mapping)].

(** A conversation with one user message of 72 characters. *)
Definition planning : json :=
  conversation "Planning" 1721001600
    [("n1", node_of "user"
        "We need an upstream system that scales the booking workflow for the club")].

(** A conversation whose only message carries [content: null]. *)
Definition null_content : json :=
  conversation "Voice note" 1721001600
    [("n1", JObj [("message",
                   JObj [("author", JObj [("role", JStr "user")]);
                         ("content", JNull)])])].

(** A message with content parts but no ['author']. *)
Definition no_author : json :=
  conversation "Import" 1721001600
    [("n1", JObj [("message",
                   JObj [("content", JObj [("parts", JArr [JStr "hello there"])])])])].

(** A reply listed before the message it answers. *)
Definition child_first : json :=
  conversation "Reordered" 1721001600
    [("reply",
      JObj [("message",
             JObj [("author", JObj [("role", JStr "assistant")]);
                   ("content", JObj [("parts", JArr [JStr "Start with the booking flow."])])]);
            ("parent", JStr "question")]);
     ("question",
      JObj [("message",
             JObj [("author", JObj [("role", JStr "user")]);
                   ("content", JObj [("parts", JArr [JStr "Where should I start?"])])]);
            ("parent", JNull)])].

(** Three user messages of 20, 25 and 19 characters. *)
Definition three_lengths : json :=
  conversation "Lengths" 1721001600
    [("a", node_of "user" "automate the booking");
     ("b", node_of "user" "automate the booking flow");
     ("c", node_of "user" "automate the bookin")].

(** A conversation holding one user message. *)
Definition said (text : string) : json :=
  conversation "Notes" 1721001600 [("n1", node_of "user" text)].

(** The same remark twice, once with a doubled space. *)
Definition told_twice : json :=
  conversation "Retro" 1721001600
    [("a", node_of "user"
        "turns out the booking flow  really works for every member");
     ("b", node_of "user"
        "turns out the booking flow really works for every member")].

(** One message in which [feedback\s+loop] matches twice. *)
Definition two_loops : json :=
  said "the feedback loop in booking feeds a second feedback loop in billing".

(** A user stuck on something, a reply, and what the user ended up doing. *)
Definition stuck_then_fixed : json :=
  conversation "Booking bug" 1721001600
    [("q", node_of "user" "I am stuck on the booking code");
     ("a", node_of "assistant" "Check the cache first.");
     ("s", node_of "user" "Ended up rewriting the cache layer")].







End Samples.

(* ===================================================================== *)
(** ** Shapes of records *)
(* ===================================================================== *)

Module Shape.

(** A node the first pass of [extract_full_conversation] reads without an
    exception: a falsy value, or a dict whose message is falsy or whose
    parent is hashable. *)
Definition node_ok (node : json) : bool :=
  negb (truthy node)
  || match node with
     | JObj fields =>
         match lookup "message" fields with
         | None => true
         | Some m =>
             negb (truthy m)
             || match lookup "parent" fields with
                | Some (JArr _) => false
                | Some (JObj _) => false
                | _ => true
                end
         end
     | _ => false
     end.

(** A conversation record it reads without an exception: a dict whose
    mapping, when present, is a dict of such nodes. *)
Definition record_ok (conv : json) : bool :=
  match conv with
  | JObj fields =>
      match lookup "mapping" fields with
      | None => true
      | Some (JObj nodes) => forallb (fun kv => node_ok (snd kv)) nodes
      | Some _ => false
      end
  | _ => false
  end.

(** Whether a node of the mapping yields a message in [extract_messages]. *)
Definition yields (repr : json -> string) (kv : string * json) : bool :=
  match ConversationAnalyzer.message_of_node repr (fst kv) (snd kv) with
  | Ok (Some _) => true
  | _ => false
  end.

(** [s.split()]: the words between runs of white space. *)
Fixpoint split_words (s word : string) : list string :=
  match s with
  | EmptyString => if String.eqb word "" then [] else [word]
  | String c rest =>
      if is_space c then
        if String.eqb word "" then split_words rest ""
        else word :: split_words rest ""
      else split_words rest (word ++ String c EmptyString)
  end.

(** The normal form the specification compares excerpts in: lower case,
    every run of white space collapsed to one space. *)
Definition normalized (excerpt : string) : string :=
  join_space (split_words (lower excerpt) "").

(** Whether [track_evolution] looks at a message at all. *)
Definition has_time (m : FinalAnalyzer.mike_message) : bool :=
  truthy (FinalAnalyzer.timestamp m).



End Shape.

(* ===================================================================== *)
(** ** What the properties are stated with *)
(* ===================================================================== *)

(** The texts the part loop keeps: string parts, and the truthy ['text'] of
    dict parts. *)
Definition kept_texts (parts : list json) : list json :=
  flat_map (fun part =>
              match part with
              | JStr _ => [part]
              | JObj fields =>
                  match lookup "text" fields with
                  | Some t => if truthy t then [t] else []
                  | None => []
                  end
              | _ => []
              end) parts.

(** How many items a group of [group_by_similarity] holds. *)
Definition group_size (g : string * list ChunkProcessor.entry) : nat :=
  List.length (snd g).

(** A tally whose examples are capped: at most three per pattern, never
    more than the pattern was counted, each at most 303 characters. *)
Definition capped (t : ConversationAnalyzer.tally) : Prop :=
  forall name,
    List.length (lookup_list name (ConversationAnalyzer.pattern_examples t)) <= 3
    /\ List.length (lookup_list name (ConversationAnalyzer.pattern_examples t))
       <= count_of name (ConversationAnalyzer.pattern_counts t)
    /\ Forall (fun example => String.length example <= 303)
         (lookup_list name (ConversationAnalyzer.pattern_examples t)).

(** The message counts, and the total lengths, of all months together. *)
Definition count_sum (d : list (string * FinalAnalyzer.month_data)) : nat :=
  list_sum (map (fun kv => FinalAnalyzer.message_count (snd kv)) d).

Definition length_sum (d : list (string * FinalAnalyzer.month_data)) : nat :=
  list_sum (map (fun kv => FinalAnalyzer.total_length (snd kv)) d).

(** A stored message: ['length'] is the length of the text, above 20, and
    the text is stripped. *)
Definition stored_well (m : FinalAnalyzer.mike_message) : Prop :=
  FinalAnalyzer.length m = String.length (FinalAnalyzer.content m)
  /\ 20 < FinalAnalyzer.length m
  /\ strip (FinalAnalyzer.content m) = FinalAnalyzer.content m.

(** The entries a message adds to [chunk_patterns], with their category. *)
Definition message_entries (title timestamp : json) (msg : string)
  : list (string * ChunkProcessor.entry) :=
  let found := {| ChunkProcessor.content := take 300 msg;
                  ChunkProcessor.title := title;
                  ChunkProcessor.timestamp := timestamp |} in
  (if ChunkProcessor.contains_pattern msg
        ["recursive"; "upstream"; "downstream"; "compress"; "abstract"]
   then [("cognitive_strategies", found)] else [])
  ++ (if ChunkProcessor.contains_pattern msg
           ["automat"; "system"; "workflow"; "process"; "scale"]
      then [("problem_solving", found)] else []).

(** The terms a message adds to [unique_phrases]. *)
Definition message_terms (msg : string) : list string :=
  match ChunkProcessor.extract_unique_terms msg with
  | Ok terms => terms
  | Raise _ => []
  end.

(** What [process_conversation] reads before it writes anything. *)
Definition conversation_inputs (conv : json)
  : result (json * json * list string) :=
  title <- get_or conv "title" (JStr "Untitled") ;;
  timestamp <- get_or conv "create_time" (JNum 0) ;;
  user_messages <- ChunkProcessor.extract_user_content conv ;;
  Ok (title, timestamp, user_messages).

(** The entries and the terms a conversation adds, message by message. *)
Definition conversation_entries (conv : json)
  : list (string * ChunkProcessor.entry) :=
  match conversation_inputs conv with
  | Ok (title, timestamp, user_messages) =>
      flat_map (message_entries title timestamp) user_messages
  | Raise _ => []
  end.

Definition conversation_terms (conv : json) : list string :=
  match conversation_inputs conv with
  | Ok (_, _, user_messages) => flat_map message_terms user_messages
  | Raise _ => []
  end.

(** Entries appended one by one, terms counted one by one, a dict of lists
    stored key by key. *)
Definition apply_entries {V} (ops : list (string * V))
    (d : list (string * list V)) : list (string * list V) :=
  fold_left (fun d op => extend_at (fst op) [snd op] d) ops d.

Definition store_all {V} (found : list (string * list V))
    (d : list (string * list V)) : list (string * list V) :=
  fold_left (fun d kv => extend_at (fst kv) (snd kv) d) found d.

Definition count_terms (terms : list string) (counter : list (string * nat))
  : list (string * nat) :=
  fold_left (fun c term => bump term c) terms counter.

(** The entries of one category, in order. *)
Definition of_category {V} (k : string) (ops : list (string * V)) : list V :=
  map snd (filter (fun op => String.eqb (fst op) k) ops).

(** [sum(len(v) for v in d.values())] *)
Definition entries_in {V} (d : list (string * list V)) : nat :=
  list_sum (map (fun kv => List.length (snd kv)) d).

(** Whether reading a conversation raises. *)
Definition readable (conv : json) : bool :=
  is_ok (fst (ChunkProcessor.process_conversation
                ChunkProcessor.chunk_patterns_0 conv ChunkProcessor.init)).






(** A message of the flow that states a problem, and one that gives a
    solution, as [extract_problem_solutions] tests them. *)
Definition states_problem (m : DecisionTreeExtractor.flow_message) : bool :=
  eq_str (DecisionTreeExtractor.role m) "user"
  && DecisionTreeExtractor.any_in DecisionTreeExtractor.problem_indicators
       (lower (DecisionTreeExtractor.content m)).

Definition gives_solution (m : DecisionTreeExtractor.flow_message) : bool :=
  eq_str (DecisionTreeExtractor.role m) "user"
  && DecisionTreeExtractor.any_in DecisionTreeExtractor.solution_indicators
       (lower (DecisionTreeExtractor.content m)).

(** The position of the solution paired with the problem at [i]: the next
    message if it gives a solution, else the one after it. *)
Definition solution_index (messages : list DecisionTreeExtractor.flow_message)
    (i : nat) : option nat :=
  match nth_error messages (i + 1) with
  | Some m1 =>
      if gives_solution m1 then Some (i + 1)
      else match nth_error messages (i + 2) with
           | Some m2 => if gives_solution m2 then Some (i + 2) else None
           | None => None
           end
  | None => None
  end.

(** The text of that solution, cut at 300 characters. *)
Definition solution_text (messages : list DecisionTreeExtractor.flow_message)
    (i : nat) : option string :=
  match solution_index messages i with
  | Some j =>
      match nth_error messages j with
      | Some mj => Some (take 300 (DecisionTreeExtractor.content mj))
      | None => None
      end
  | None => None
  end.

(** What round [i] of the flow loop appends. *)
Definition pair_of (title : json)
    (messages : list DecisionTreeExtractor.flow_message) (i : nat)
  : list DecisionTreeExtractor.problem_solution :=
  match nth_error messages i with
  | Some mi =>
      if states_problem mi then
        match solution_text messages i with
        | Some text =>
            [ {| DecisionTreeExtractor.problem :=
                   take 300 (DecisionTreeExtractor.content mi);
                 DecisionTreeExtractor.solution := text;
                 DecisionTreeExtractor.pair_title := title |} ]
        | None => []
        end
      else []
  | None => []
  end.







(** The pairs of neighbouring words. *)
Fixpoint adjacent_pairs (words : list string) : list (string * string) :=
  match words with
  | w :: (w' :: _) as rest => (w, w') :: adjacent_pairs rest
  | _ => []
  end.

(** Counting one pair: both words longer than three characters. *)
Definition count_pair (key_phrases : list (string * nat))
    (p : string * string) : list (string * nat) :=
  if (3 <? String.length (fst p)) && (3 <? String.length (snd p))
  then bump (fst p ++ " " ++ snd p)%string key_phrases
  else key_phrases.

(* ===================================================================== *)
(** ** Properties *)
(* ===================================================================== *)

Section ListFacts.
Context {A : Type}.

Lemma firstn_add_split (a b : nat) (l : list A) :
  firstn (a + b) l = firstn a l ++ firstn b (skipn a l).
Proof.
  revert l; induction a as [|a IH]; intros l; simpl.
  - reflexivity.
  - destruct l as [|x l]; simpl.
    + now rewrite firstn_nil.
    + now rewrite IH.
Qed.

Lemma slice_length (i j : nat) (l : list A) :
  length (slice i j l) = Nat.min (j - i) (length l - i).
Proof.
  unfold slice. now rewrite length_firstn, length_skipn.
Qed.

Lemma concat_slices (c m : nat) (l : list A) :
  concat (map (fun i => slice i (i + c) l) (map (fun k => k * c) (seq 0 m)))
  = firstn (m * c) l.
Proof.
  induction m as [|m IH].
  - reflexivity.
  - rewrite seq_S, !map_app, concat_app, IH. simpl.
    rewrite app_nil_r. unfold slice.
    replace (m * c + c - m * c) with c by lia.
    replace (c + m * c) with (m * c + c) by lia.
    now rewrite firstn_add_split.
Qed.

End ListFacts.

(* --------------------------------------------------------------------- *)
(** *** The batch scheduler's split *)

Lemma range_len_ceil (n c : nat) :
  0 < c -> ChunkProcessor.range_len n c = (n + c - 1) / c.
Proof.
  intros Hc. destruct n as [|p]; unfold ChunkProcessor.range_len.
  - symmetry. apply Nat.div_small. lia.
  - replace (S p + c - 1) with (p + 1 * c) by lia.
    now rewrite Nat.div_add by lia.
Qed.

Lemma range_len_covers (n c : nat) :
  0 < c -> n <= ChunkProcessor.range_len n c * c.
Proof.
  intros Hc. destruct n as [|p]; simpl; [lia|].
  pose proof (Nat.div_mod_eq p c) as E.
  pose proof (Nat.mod_upper_bound p c ltac:(lia)) as B.
  nia.
Qed.

Lemma nth_chunk (A : Type) (l : list A) (c m k : nat) :
  k < m ->
  nth k (map (fun i => slice i (i + c) l) (map (fun j => j * c) (seq 0 m))) []
  = slice (k * c) (k * c + c) l.
Proof.
  intros Hk. rewrite map_map.
  rewrite (nth_indep _ [] ((fun j => slice (j * c) (j * c + c) l) 0))
    by now rewrite length_map, length_seq.
  rewrite (map_nth (fun j => slice (j * c) (j * c + c) l)).
  now rewrite seq_nth by assumption.
Qed.

(** C6. For a chunk size [c > 0], [process_all_chunks] cuts a corpus of [n]
    conversations into [ceil(n/c)] slices whose concatenation is the corpus
    again; every slice but the last holds [c] conversations and the last
    holds [n mod c] of them, or [c] when [c] divides [n]; 120 conversations
    in chunks of 50 give slices of 50, 50 and 20. *)
Theorem C6_chunks_partition (A : Type) (corpus : list A) (c : nat) (Hc : 0 < c) :
  exists cs,
    ChunkProcessor.chunks corpus (Z.of_nat c) = Ok cs
    /\ length cs = (length corpus + c - 1) / c
    /\ concat cs = corpus
    /\ (forall k, S k < length cs -> length (nth k cs []) = c)
    /\ (forall k, S k = length cs ->
          length (nth k cs []) =
          if length corpus mod c =? 0 then c else length corpus mod c)
    /\ (length corpus = 120 -> c = 50 -> map (@length A) cs = [50; 50; 20]).
Proof.
  unfold ChunkProcessor.chunks, ChunkProcessor.range_step.
  destruct (Z.eqb_spec (Z.of_nat c) 0) as [E|_]; [lia|].
  destruct (Z.ltb_spec (Z.of_nat c) 0) as [E|_]; [lia|].
  rewrite Nat2Z.id.
  set (n := length corpus).
  set (m := ChunkProcessor.range_len n c).
  eexists; split; [reflexivity|].
  assert (Hlen : length (map (fun i => slice i (i + c) corpus)
                          (map (fun k => k * c) (seq 0 m))) = m)
    by now rewrite !length_map, length_seq.
  assert (Hm : m = (n + c - 1) / c) by now apply range_len_ceil.
  assert (Hsizes : forall k, k < m ->
            length (nth k (map (fun i => slice i (i + c) corpus)
                             (map (fun j => j * c) (seq 0 m))) [])
            = Nat.min c (n - k * c)).
  { intros k Hk. rewrite nth_chunk by assumption. rewrite slice_length.
    fold n. f_equal. lia. }
  repeat split.
  - now rewrite Hlen.
  - rewrite concat_slices. apply firstn_all2.
    now apply range_len_covers.
  - intros k Hk. rewrite Hlen in Hk. rewrite Hsizes by lia.
    subst m. destruct n as [|p]; simpl in Hk; [lia|].
    pose proof (Nat.div_mod_eq p c). 
    pose proof (Nat.mod_upper_bound p c ltac:(lia)). nia.
  - intros k Hk. rewrite Hlen in Hk. rewrite Hsizes by lia.
    subst m. destruct n as [|p]; simpl in Hk; [lia|].
    assert (k = p / c) by lia. subst k.
    pose proof (Nat.div_mod_eq p c) as E.
    pose proof (Nat.mod_upper_bound p c ltac:(lia)) as B.
    assert (R : S p - p / c * c = S (p mod c)) by nia.
    rewrite R.
    destruct (Nat.eq_dec (S (p mod c)) c) as [Heq|Hne].
    + assert (Z0 : S p mod c = 0).
      { symmetry. apply (Nat.mod_unique (S p) c (S (p / c)) 0); nia. }
      rewrite Z0. simpl. lia.
    + assert (Z1 : S p mod c = S (p mod c)).
      { symmetry. apply (Nat.mod_unique (S p) c (p / c) (S (p mod c))); nia. }
      rewrite Z1. simpl. lia.
  - intros Hn Hc50. subst c. subst m. rewrite Hn. simpl.
    unfold n in Hn.
    rewrite !slice_length, Hn. reflexivity.
Qed.

Lemma C6_chunks_partition_witness :
  0 < 2 /\
  exists cs,
    ChunkProcessor.chunks [1; 2; 3; 4; 5] (Z.of_nat 2) = Ok cs
    /\ length cs = (length [1; 2; 3; 4; 5] + 2 - 1) / 2
    /\ concat cs = [1; 2; 3; 4; 5]
    /\ (forall k, S k < length cs -> length (nth k cs []) = 2)
    /\ (forall k, S k = length cs ->
          length (nth k cs []) =
          if length [1; 2; 3; 4; 5] mod 2 =? 0 then 2
          else length [1; 2; 3; 4; 5] mod 2)
    /\ (length [1; 2; 3; 4; 5] = 120 -> 2 = 50 ->
        map (@length nat) cs = [50; 50; 20]).
Proof.
  split; [lia | apply (C6_chunks_partition nat [1; 2; 3; 4; 5] 2); lia].
Defined.

(* --------------------------------------------------------------------- *)
(** *** An exception inside a chunk *)

Section SliceFacts.
Context {A : Type}.

Lemma slice_app_l (i j : nat) (l1 l2 : list A) :
  j <= length l1 -> slice i j (l1 ++ l2) = slice i j l1.
Proof.
  intros Hj. unfold slice. rewrite skipn_app, firstn_app, length_skipn.
  replace (j - i - (length l1 - i)) with 0 by lia.
  now rewrite firstn_O, app_nil_r.
Qed.

Lemma slice_straddle (i c : nat) (l1 : list A) (x : A) (l2 : list A) :
  i <= length l1 -> length l1 < i + c ->
  slice i (i + c) (l1 ++ x :: l2)
  = skipn i l1 ++ x :: firstn (c - (length l1 - i) - 1) l2.
Proof.
  intros Hi Hc. unfold slice. rewrite skipn_app.
  replace (i - length l1) with 0 by lia. rewrite skipn_O.
  replace (i + c - i) with c by lia.
  rewrite firstn_app, length_skipn.
  rewrite firstn_all2 by (rewrite length_skipn; lia).
  f_equal.
  destruct (c - (length l1 - i)) as [|d] eqn:E; [lia|].
  simpl. now rewrite Nat.sub_0_r.
Qed.

End SliceFacts.

(** The chunk list of a corpus, seen from one conversation in it: the
    chunks before its own are cut from what precedes it, and its own chunk
    begins with the tail of what precedes it. *)
Lemma chunks_around (before : list json) (conv : json) (c : nat) :
  0 < c ->
  let j := length before / c in
  forall after, exists rest later,
    ChunkProcessor.chunks (before ++ conv :: after) (Z.of_nat c)
    = Ok (map (fun k => slice (k * c) (k * c + c) before) (seq 0 j)
          ++ (skipn (j * c) before ++ conv :: rest) :: later).
Proof.
  intros Hc j after.
  pose proof (Nat.div_mod_eq (length before) c) as E.
  pose proof (Nat.mod_upper_bound (length before) c ltac:(lia)) as B.
  fold j in E.
  unfold ChunkProcessor.chunks, ChunkProcessor.range_step.
  destruct (Z.eqb_spec (Z.of_nat c) 0) as [E0|_]; [lia|].
  destruct (Z.ltb_spec (Z.of_nat c) 0) as [E0|_]; [lia|].
  rewrite Nat2Z.id.
  set (l := before ++ conv :: after).
  set (m := ChunkProcessor.range_len (length l) c).
  assert (Hl : length l = length before + S (length after))
    by (unfold l; rewrite length_app; reflexivity).
  assert (Hjm : j < m).
  { pose proof (range_len_covers (length l) c Hc) as Hcov. fold m in Hcov.
    destruct (Nat.lt_ge_cases j m) as [|Hge]; [assumption|]. nia. }
  replace m with (j + S (m - S j)) by lia.
  rewrite seq_app, !map_app. simpl seq. simpl map.
  exists (firstn (c - (length before - j * c) - 1) after).
  eexists. f_equal. f_equal.
  - rewrite map_map. apply map_ext_in. intros k Hk. apply in_seq in Hk.
    unfold l. apply slice_app_l. nia.
  - f_equal. unfold l. apply slice_straddle; nia.
Qed.

Section Propagation.
Import ChunkProcessor.

Variable conv : json.
Hypothesis conv_raises :
  forall cp self, is_ok (fst (process_conversation cp conv self)) = false.

Lemma conversations_stop_at_conv (pre : list json) :
  forall cp self, exists e self',
    forall rest,
      forM (pre ++ conv :: rest) process_conversation cp self = (Raise e, self').
Proof.
  induction pre as [|x pre IH]; intros cp self; simpl; unfold bindM.
  - specialize (conv_raises cp self).
    destruct (process_conversation cp conv self) as [[a|e] s1]; simpl in *.
    + discriminate.
    + now exists e, s1.
  - destruct (process_conversation cp x self) as [[a|e] s1].
    + apply IH.
    + now exists e, s1.
Qed.

Lemma chunk_stops_at_conv (pre : list json) (idx : nat) (self : state) :
  exists e self',
    forall rest, process_chunk (pre ++ conv :: rest) idx self = (Raise e, self').
Proof.
  destruct (conversations_stop_at_conv pre chunk_patterns_0 self) as (e & s1 & H).
  exists e, s1. intros rest. unfold process_chunk, bindM. now rewrite H.
Qed.

Lemma chunks_stop_at_conv (earlier : list (list json)) (pre : list json) :
  forall idx self, exists e self',
    forall rest later,
      process_chunks idx (earlier ++ (pre ++ conv :: rest) :: later) self
      = (Raise e, self').
Proof.
  induction earlier as [|ch earlier IH]; intros idx self; simpl; unfold bindM.
  - destruct (chunk_stops_at_conv pre idx self) as (e & s1 & H).
    exists e, s1. intros rest later. now rewrite H.
  - destruct (process_chunk ch idx self) as [[a|e] s1].
    + apply IH.
    + now exists e, s1.
Qed.

End Propagation.

(* --------------------------------------------------------------------- *)
(** *** The tree walk of the deep-dive analyser *)

Lemma no_root_selected (node_ids : list string) (d : DeepDiveAnalyzer.index) :
  DeepDiveAnalyzer.root_nodes node_ids d = [].
Proof.
  unfold DeepDiveAnalyzer.root_nodes.
  induction node_ids as [|n ids IH]; simpl; [reflexivity|].
  replace (DeepDiveAnalyzer.str_in_tuples n
             (DeepDiveAnalyzer.children DeepDiveAnalyzer.KNone d)) with false.
  - exact IH.
  - unfold DeepDiveAnalyzer.str_in_tuples.
    induction (DeepDiveAnalyzer.children DeepDiveAnalyzer.KNone d);
      simpl; auto.
Qed.

Lemma organize_ok (d : DeepDiveAnalyzer.index) (item : string * json) :
  Shape.node_ok (snd item) = true ->
  exists d', DeepDiveAnalyzer.organize d item = Ok d'.
Proof.
  destruct item as [id node]. unfold Shape.node_ok, DeepDiveAnalyzer.organize.
  simpl snd. intros H.
  destruct (truthy node) eqn:T; simpl in *; [|eauto].
  destruct node as [| b | q | s | l | fields]; try discriminate.
  unfold get, get_or.
  destruct (lookup "message" fields) as [m|]; simpl; [|eauto].
  destruct (truthy m); simpl in *; [|eauto].
  destruct (lookup "parent" fields) as [[| b | q | s | l | f]|]; simpl;
    try discriminate; eauto.
Qed.

Lemma first_pass_ok (nodes : list (string * json)) :
  forallb (fun kv => Shape.node_ok (snd kv)) nodes = true ->
  forall d, exists d', foldM DeepDiveAnalyzer.organize nodes d = Ok d'.
Proof.
  induction nodes as [|item nodes IH]; simpl; intros H d.
  - eauto.
  - apply andb_true_iff in H as [H1 H2].
    destruct (organize_ok d item H1) as [d1 E]. rewrite E. simpl.
    now apply IH.
Qed.

(** C1. [extract_full_conversation] never emits a message: whenever it
    returns, ['messages'] is empty and ['total_messages'] is 0, and it does
    return on every record whose mapping is a dict of readable nodes.  The
    root test asks whether a node id is a member of a list of
    [(node_id, node)] tuples, which no string is. *)
Theorem C1_extract_full_conversation_empty (fuel : nat) (conv : json) :
  (forall r,
     DeepDiveAnalyzer.extract_full_conversation fuel conv = Ok r ->
     DeepDiveAnalyzer.messages r = [] /\ DeepDiveAnalyzer.total_messages r = 0)
  /\ (Shape.record_ok conv = true ->
      exists title time,
        DeepDiveAnalyzer.extract_full_conversation fuel conv
        = Ok {| DeepDiveAnalyzer.f_title := title;
                DeepDiveAnalyzer.f_timestamp := time;
                DeepDiveAnalyzer.messages := [];
                DeepDiveAnalyzer.total_messages := 0 |}).
Proof.
  unfold DeepDiveAnalyzer.extract_full_conversation. split.
  - intros r.
    destruct (get_or conv "mapping" (JObj [])) as [mapping|]; simpl; [|discriminate].
    destruct (get_or conv "title" (JStr "Unknown")) as [title|]; simpl; [|discriminate].
    destruct (get_or conv "create_time" (JNum 0)) as [time|]; simpl; [|discriminate].
    destruct (items mapping) as [nodes|]; simpl; [|discriminate].
    destruct (foldM DeepDiveAnalyzer.organize nodes []) as [d|]; simpl; [|discriminate].
    destruct (keys mapping) as [ids|]; simpl; [|discriminate].
    rewrite no_root_selected. simpl. intros [= <-]. simpl. auto.
  - unfold Shape.record_ok. intros H.
    destruct conv as [| b | q | s | l | fields]; try discriminate.
    unfold get_or.
    assert (exists nodes,
               match lookup "mapping" fields with
               | Some v => Ok v
               | None => Ok (JObj [])
               end = Ok (JObj nodes)
               /\ forallb (fun kv => Shape.node_ok (snd kv)) nodes = true)
      as (nodes & -> & Hn).
    { destruct (lookup "mapping" fields) as [[| b | q | s | l | nodes]|];
        try discriminate; eauto. }
    simpl bind.
    destruct (lookup "title" fields) as [title|];
      destruct (lookup "create_time" fields) as [time|]; simpl bind;
      destruct (first_pass_ok nodes Hn []) as [d ->]; simpl bind;
      rewrite no_root_selected; simpl; eauto.
Qed.

Lemma C1_extract_full_conversation_empty_witness :
  Shape.record_ok Samples.planning = true
  /\ exists title time,
       DeepDiveAnalyzer.extract_full_conversation 1000 Samples.planning
       = Ok {| DeepDiveAnalyzer.f_title := title;
               DeepDiveAnalyzer.f_timestamp := time;
               DeepDiveAnalyzer.messages := [];
               DeepDiveAnalyzer.total_messages := 0 |}.
Proof.
  split; [reflexivity|].
  apply (proj2 (C1_extract_full_conversation_empty 1000 Samples.planning)).
  reflexivity.
Defined.

(* --------------------------------------------------------------------- *)
(** *** Loops that append *)

Lemma collect_flat_map {A B} (f : A -> result (option B)) (xs : list A) :
  forall acc out,
    collect f xs acc = Ok out ->
    out = acc ++ flat_map (fun x => match f x with
                                    | Ok o => opt_list o
                                    | Raise _ => []
                                    end) xs.
Proof.
  unfold collect.
  induction xs as [|x xs IH]; simpl; intros acc out H.
  - injection H as <-. now rewrite app_nil_r.
  - destruct (f x) as [o|e]; simpl in H; [|discriminate].
    apply IH in H. now rewrite H, app_assoc.
Qed.

Lemma collect_raises {A B} (f : A -> result (option B)) (xs : list A) (x : A)
    (ys : list A) (e : exn) :
  Forall (fun y => is_ok (f y) = true) xs ->
  f x = Raise e ->
  forall acc, collect f (xs ++ x :: ys) acc = Raise e.
Proof.
  unfold collect. intros Hxs Hx.
  induction Hxs as [|y xs Hy _ IH]; simpl; intros acc.
  - now rewrite Hx.
  - destruct (f y) as [o|e']; [|discriminate]. simpl. apply IH.
Qed.

(* --------------------------------------------------------------------- *)
(** *** The pattern tables *)

Definition compiles (pattern : string) : bool :=
  match Re.compile pattern with Some _ => true | None => false end.

(** Every pattern of the tables is read: none of the scripts' searches can
    end in [re.error]. *)
Lemma tables_compile :
  forallb compiles
    (ChunkProcessor.unique_patterns
     ++ map snd ConversationAnalyzer.patterns
     ++ flat_map (fun config => fst (snd config))
          DeepConversationAnalyzer.unique_patterns
     ++ FinalAnalyzer.insight_patterns
     ++ flat_map snd DecisionTreeExtractor.decision_indicators
     ++ DecisionTreeExtractor.if_then_patterns)
  = true.
Proof. vm_compute. reflexivity. Qed.

(* --------------------------------------------------------------------- *)
(** *** Malformed nodes in [extract_messages] *)

(** What the chunk processor does with the three malformations: a node
    without ['message'], a message without ['author'], a user message
    without ['content'] are all passed over, whatever else they hold. *)
Lemma user_content_skips_malformed (messages : list string)
    (node_fields message_fields : list (string * json)) :
  (lookup "message" node_fields = None ->
   ChunkProcessor.user_content_of_node messages (JObj node_fields) = Ok messages)
  /\ (lookup "author" message_fields = None ->
      ChunkProcessor.user_content_of_node messages
        (JObj (("message", JObj (("x", JNull) :: message_fields)) :: node_fields))
      = Ok messages)
  /\ (lookup "content" message_fields = None ->
      ChunkProcessor.user_content_of_node messages
        (JObj (("message",
                JObj (("author", JObj [("role", JStr "user")]) :: message_fields))
               :: node_fields))
      = Ok messages).
Proof.
  unfold ChunkProcessor.user_content_of_node.
  repeat split; intros H.
  - destruct (truthy (JObj node_fields)); cbn [negb]; [|reflexivity].
    unfold get, get_or. now rewrite H.
  - cbn [truthy negb get get_or lookup String.eqb Ascii.eqb Bool.eqb bind].
    now rewrite H.
  - cbn [truthy negb get get_or lookup String.eqb Ascii.eqb Bool.eqb bind eq_str].
    now rewrite H.
Qed.

(** C2, at the failing input. A message that has content parts and no
    ['author'] makes [extract_messages] raise [KeyError] at
    [msg['author']['role']], and so does any mapping in which such a node
    follows nodes that are read without error; [extract_user_content] of
    the chunk processor, which reads the author with [get], skips the same
    node. *)
Theorem C2_extract_messages_raises_without_author (repr : json -> string) :
  ConversationAnalyzer.extract_messages repr Samples.no_author = Raise KeyError
  /\ ChunkProcessor.extract_user_content Samples.no_author = Ok []
  /\ forall before after title time,
       Forall (fun kv =>
                 is_ok (ConversationAnalyzer.message_of_node repr (fst kv) (snd kv))
                 = true) before ->
       ConversationAnalyzer.extract_messages repr
         (Samples.conversation title time
            (before
             ++ ("n1", JObj [("message",
                              JObj [("content",
                                     JObj [("parts", JArr [JStr "hello there"])])])])
             :: after))
       = Raise KeyError.
Proof.
  split; [reflexivity|]. split; [reflexivity|].
  intros before after title time H.
  unfold ConversationAnalyzer.extract_messages. simpl.
  apply (collect_raises
           (fun kv => ConversationAnalyzer.message_of_node repr (fst kv) (snd kv)));
    [assumption | reflexivity].
Qed.

(* --------------------------------------------------------------------- *)
(** *** The order of the decoded messages *)

Lemma message_of_node_id (repr : json -> string) (id : string) (node : json)
    (m : ConversationAnalyzer.message) :
  ConversationAnalyzer.message_of_node repr id node = Ok (Some m) ->
  ConversationAnalyzer.node_id m = id.
Proof.
  unfold ConversationAnalyzer.message_of_node. intros H.
  repeat match type of H with
         | bind ?x _ = _ => destruct x; simpl in H; try discriminate
         | (if ?c then _ else _) = _ => destruct c; simpl in H; try discriminate
         | match ?l with [] => _ | _ :: _ => _ end = _ =>
             destruct l; simpl in H; try discriminate
         end.
  injection H as <-. reflexivity.
Qed.

Lemma yielded_ids (repr : json -> string) (nodes : list (string * json)) :
  map ConversationAnalyzer.node_id
    (flat_map (fun kv =>
                 match ConversationAnalyzer.message_of_node repr (fst kv) (snd kv) with
                 | Ok o => opt_list o
                 | Raise _ => []
                 end) nodes)
  = map fst (filter (Shape.yields repr) nodes).
Proof.
  induction nodes as [|kv nodes IH]; simpl; [reflexivity|].
  rewrite map_app, IH. unfold Shape.yields at 2.
  destruct (ConversationAnalyzer.message_of_node repr (fst kv) (snd kv))
    as [[m|]|e] eqn:E; simpl; try reflexivity.
  now rewrite (message_of_node_id _ _ _ _ E).
Qed.

(** C9, as the code has it. [extract_messages] walks [mapping.items()] and
    never follows a parent reference: the node ids of the messages it
    returns are the keys of the mapping, in mapping order, of the nodes
    that yield a message.  A parent's message therefore comes before its
    child's exactly when the parent's node comes first in the mapping. *)
Theorem C9_extract_messages_mapping_order (repr : json -> string)
    (conv : json) (nodes : list (string * json))
    (msgs : list ConversationAnalyzer.message)
    (Hmap : get_or conv "mapping" (JObj []) = Ok (JObj nodes))
    (Hret : ConversationAnalyzer.extract_messages repr conv = Ok msgs) :
  map ConversationAnalyzer.node_id msgs
  = map fst (filter (Shape.yields repr) nodes).
Proof.
  unfold ConversationAnalyzer.extract_messages in Hret.
  rewrite Hmap in Hret. simpl in Hret.
  apply collect_flat_map in Hret. subst msgs. simpl.
  apply yielded_ids.
Qed.

Lemma C9_extract_messages_mapping_order_witness :
  map ConversationAnalyzer.node_id
    [ {| ConversationAnalyzer.role := JStr "assistant";
         ConversationAnalyzer.content := "Start with the booking flow.";
         ConversationAnalyzer.timestamp := JNull;
         ConversationAnalyzer.node_id := "reply" |};
      {| ConversationAnalyzer.role := JStr "user";
         ConversationAnalyzer.content := "Where should I start?";
         ConversationAnalyzer.timestamp := JNull;
         ConversationAnalyzer.node_id := "question" |} ]
  = map fst
      (filter (Shape.yields (fun _ => ""))
         [("reply",
           JObj [("message",
                  JObj [("author", JObj [("role", JStr "assistant")]);
                        ("content",
                         JObj [("parts", JArr [JStr "Start with the booking flow."])])]);
                 ("parent", JStr "question")]);
          ("question",
           JObj [("message",
                  JObj [("author", JObj [("role", JStr "user")]);
                        ("content",
                         JObj [("parts", JArr [JStr "Where should I start?"])])]);
                 ("parent", JNull)])]).
Proof.
  apply (C9_extract_messages_mapping_order (fun _ => "") Samples.child_first);
    reflexivity.
Defined.

(** C9 does not hold as stated. With the reply listed before the question
    it answers, [extract_messages] returns the reply first, however
    non-string values print. *)
Lemma C9_child_listed_first_comes_first :
  (fun repr => ConversationAnalyzer.extract_messages repr Samples.child_first)
  = (fun _ =>
       Ok [ {| ConversationAnalyzer.role := JStr "assistant";
               ConversationAnalyzer.content := "Start with the booking flow.";
               ConversationAnalyzer.timestamp := JNull;
               ConversationAnalyzer.node_id := "reply" |};
            {| ConversationAnalyzer.role := JStr "user";
               ConversationAnalyzer.content := "Where should I start?";
               ConversationAnalyzer.timestamp := JNull;
               ConversationAnalyzer.node_id := "question" |} ]).
Proof. reflexivity. Qed.

(* --------------------------------------------------------------------- *)
(** *** The length filter *)












(* --------------------------------------------------------------------- *)
(** *** Messages without a time of their own *)

Lemma track_message_without_time (local_month : Q -> result string)
    (d : list (string * FinalAnalyzer.month_data)) (m : FinalAnalyzer.mike_message) :
  Shape.has_time m = false ->
  FinalAnalyzer.track_message local_month d m = Ok d.
Proof.
  unfold Shape.has_time, FinalAnalyzer.track_message. now intros ->.
Qed.

(* --------------------------------------------------------------------- *)
(** *** Repeated insights *)

Lemma show_unique_fresh (items : list FinalAnalyzer.found_insight) :
  forall seen,
    NoDup (map (fun i => lower (FinalAnalyzer.insight i))
             (FinalAnalyzer.show_unique items seen))
    /\ forall i, In i (FinalAnalyzer.show_unique items seen) ->
                 existsb (String.eqb (lower (FinalAnalyzer.insight i))) seen = false.
Proof.
  induction items as [|item rest IH]; intros seen; simpl.
  - split; [constructor | intros i []].
  - destruct (existsb (String.eqb (lower (FinalAnalyzer.insight item))) seen)
      eqn:E; simpl.
    + apply IH.
    + destruct (30 <? String.length (lower (FinalAnalyzer.insight item))); simpl.
      * destruct (IH (lower (FinalAnalyzer.insight item) :: seen)) as [Hnd Hfresh].
        split.
        -- constructor; [|assumption].
           intros Hin. apply in_map_iff in Hin as (j & Hj & Hin).
           apply Hfresh in Hin. simpl in Hin.
           apply orb_false_iff in Hin as [Hne _].
           rewrite Hj, String.eqb_refl in Hne. discriminate.
        -- intros i [<- | Hin]; [assumption|].
           apply Hfresh in Hin. simpl in Hin.
           now apply orb_false_iff in Hin as [_ ?].
      * apply IH.
Qed.

(** C8, as the code has it. What [find_unique_insights] prints is unique up
    to letter case only: the key it remembers is [insight.lower()], so no
    two printed insights have the same lower-case text, and white space is
    compared as it stands. *)
Theorem C8_printed_unique_up_to_case
    (all_mike_messages : list FinalAnalyzer.mike_message)
    (printed : list FinalAnalyzer.found_insight)
    (Hret : FinalAnalyzer.find_unique_insights all_mike_messages = Ok printed) :
  NoDup (map (fun i => lower (FinalAnalyzer.insight i)) printed).
Proof.
  unfold FinalAnalyzer.find_unique_insights in Hret.
  destruct (FinalAnalyzer.collect_insights all_mike_messages) as [insights|];
    simpl in Hret; [|discriminate].
  injection Hret as <-. apply show_unique_fresh.
Qed.

Lemma C8_printed_unique_up_to_case_witness :
  NoDup (map (fun i => lower (FinalAnalyzer.insight i))
           [ {| FinalAnalyzer.insight :=
                  "the booking flow really works for every member";
                FinalAnalyzer.i_title := JStr "Retro";
                FinalAnalyzer.i_timestamp := JNum 1721001600 |} ]).
Proof.
  apply (C8_printed_unique_up_to_case
           [ {| FinalAnalyzer.content :=
                  "turns out the booking flow really works for every member";
                FinalAnalyzer.title := JStr "Retro";
                FinalAnalyzer.timestamp := JNum 1721001600;
                FinalAnalyzer.length := 56 |};
             {| FinalAnalyzer.content :=
                  "Turns out the Booking flow really works for every member";
                FinalAnalyzer.title := JStr "Retro";
                FinalAnalyzer.timestamp := JNum 1721001600;
                FinalAnalyzer.length := 56 |} ]).
  vm_compute. reflexivity.
Defined.

(** C8 does not hold as stated. Two remarks that differ by a doubled space
    have the same normal form and are both printed by
    [find_unique_insights]; and [consolidate_findings] removes nothing at
    all: the same message found in two conversations is written twice
    under its group. *)
Lemma C8_doubled_space_printed_twice :
  (all_mike_messages <- FinalAnalyzer.load_and_extract_all [Samples.told_twice] ;;
   FinalAnalyzer.find_unique_insights all_mike_messages)
  = Ok [ {| FinalAnalyzer.insight :=
              "the booking flow  really works for every member";
            FinalAnalyzer.i_title := JStr "Retro";
            FinalAnalyzer.i_timestamp := JNum 1721001600 |};
         {| FinalAnalyzer.insight :=
              "the booking flow really works for every member";
            FinalAnalyzer.i_title := JStr "Retro";
            FinalAnalyzer.i_timestamp := JNum 1721001600 |} ]
  /\ Shape.normalized "the booking flow  really works for every member"
     = Shape.normalized "the booking flow really works for every member"
  /\ option_map ChunkProcessor.strategies
       (match fst (ChunkProcessor.process_all_chunks true
                     [Samples.planning; Samples.planning] 50 ChunkProcessor.init)
        with Ok written => Some written | Raise _ => None end)
     = Some [("Upstream Logic",
              ["We need an upstream system that scales the booking workflow for the club";
               "We need an upstream system that scales the booking workflow for the club"])].
Proof.
  split; [vm_compute; reflexivity|].
  split; vm_compute; reflexivity.
Qed.

(* --------------------------------------------------------------------- *)
(** *** The if-then rules *)

(** C4, as the code has it. The if-rule of [extract_if_then_logic] reads
    [if (?:you|we|i) ...]: the text "if you break the system, I rebuild it"
    gives one record with the condition "break the system", the action
    "I rebuild it" and no else-branch, while "if the system is broken, I
    rebuild it" gives none; and [extract_decision_patterns] passes over
    every text of at most 50 characters, that one (37 characters)
    included. *)
Theorem C4_if_rule_wants_a_pronoun (text : string)
    (Hshort : String.length text <= 50) :
  DecisionTreeExtractor.extract_decision_patterns [Samples.said text] = Ok []
  /\ DecisionTreeExtractor.extract_if_then_logic
       [Samples.said "if you break the system, I rebuild it"]
     = Ok [ {| DecisionTreeExtractor.if_ := "break the system";
               DecisionTreeExtractor.then_ := "I rebuild it";
               DecisionTreeExtractor.else_ := None;
               DecisionTreeExtractor.context :=
                 "if you break the system, I rebuild it" |} ]
  /\ DecisionTreeExtractor.extract_if_then_logic
       [Samples.said "if the system is broken, I rebuild it"]
     = Ok [].
Proof.
  split; [|split; vm_compute; reflexivity].
  unfold DecisionTreeExtractor.extract_decision_patterns, Samples.said,
    Samples.conversation, Samples.node_of, DecisionTreeExtractor.user_text,
    DecisionTreeExtractor.extract_message_content, Parts.flatten.
  cbn [foldM bind get get_or getitem items lookup String.eqb Ascii.eqb Bool.eqb
       truthy negb eq_str snd fst iter Parts.add_part is_str app join
       as_strings join_space].
  apply Nat.ltb_ge in Hshort. rewrite Hshort, andb_false_r. reflexivity.
Qed.

Lemma C4_if_rule_wants_a_pronoun_witness :
  String.length "if the system is broken, I rebuild it" <= 50
  /\ DecisionTreeExtractor.extract_decision_patterns
       [Samples.said "if the system is broken, I rebuild it"] = Ok []
  /\ DecisionTreeExtractor.extract_if_then_logic
       [Samples.said "if you break the system, I rebuild it"]
     = Ok [ {| DecisionTreeExtractor.if_ := "break the system";
               DecisionTreeExtractor.then_ := "I rebuild it";
               DecisionTreeExtractor.else_ := None;
               DecisionTreeExtractor.context :=
                 "if you break the system, I rebuild it" |} ]
  /\ DecisionTreeExtractor.extract_if_then_logic
       [Samples.said "if the system is broken, I rebuild it"]
     = Ok [].
Proof.
  split; [vm_compute; lia|].
  apply (C4_if_rule_wants_a_pronoun "if the system is broken, I rebuild it").
  vm_compute; lia.
Defined.

(** C4 does not hold as stated. For "if the system is broken, I rebuild it"
    neither extractor produces a record; past the length guard of
    [extract_decision_patterns] the condition_action rule captures "t" as
    the condition, its first group being lazy and everything up to the
    second group optional. *)
Lemma C4_no_record_for_the_scenario_text :
  DecisionTreeExtractor.extract_if_then_logic
    [Samples.said "if the system is broken, I rebuild it"] = Ok []
  /\ DecisionTreeExtractor.extract_decision_patterns
       [Samples.said "if the system is broken, I rebuild it"] = Ok []
  /\ DecisionTreeExtractor.extract_decision_patterns
       [Samples.said "if the system is broken, I rebuild it from the ground up again"]
     = Ok [ {| DecisionTreeExtractor.type_ := "condition_action";
               DecisionTreeExtractor.condition := "t";
               DecisionTreeExtractor.action :=
                 "he system is broken, I rebuild it from the ground up again";
               DecisionTreeExtractor.full_context :=
                 "if the system is broken, I rebuild it from the ground up again";
               DecisionTreeExtractor.title := JStr "Notes" |} ].
Proof.
  split; [vm_compute; reflexivity|].
  split; vm_compute; reflexivity.
Qed.

(* --------------------------------------------------------------------- *)
(** *** Several matches of one expression *)


Lemma count_of_bump (name : string) (counter : list (string * nat)) :
  count_of name (bump name counter) = S (count_of name counter).
Proof.
  unfold count_of.
  induction counter as [|[t n] rest IH]; simpl.
  - now rewrite String.eqb_refl.
  - destruct (String.eqb t name) eqn:E; simpl; rewrite E; [reflexivity|].
    apply IH.
Qed.




(* ===================================================================== *)
(** ** Further properties of the scripts *)
(* ===================================================================== *)

(* --------------------------------------------------------------------- *)
(** *** Loops with an invariant *)

Lemma foldM_invariant {A S} (P : S -> Prop) (body : S -> A -> result S)
    (xs : list A) :
  (forall acc x acc', P acc -> body acc x = Ok acc' -> P acc') ->
  forall acc out, P acc -> foldM body xs acc = Ok out -> P out.
Proof.
  intros Hstep. induction xs as [|x xs IH]; simpl; intros acc out Hacc H.
  - now injection H as <-.
  - destruct (body acc x) as [acc'|e] eqn:E; simpl in H; [|discriminate].
    eapply IH; [|exact H]. eapply Hstep; eauto.
Qed.

Lemma foldM_app {A S} (body : S -> A -> result S) (xs ys : list A) (acc : S) :
  foldM body (xs ++ ys) acc = bind (foldM body xs acc) (foldM body ys).
Proof.
  revert acc. induction xs as [|x xs IH]; simpl; intros acc; [reflexivity|].
  destruct (body acc x); simpl; [apply IH | reflexivity].
Qed.

(** Taking apart a hypothesis that a chain of binds and tests returned. *)
Ltac unbind H :=
  repeat match type of H with
         | bind ?x _ = _ => destruct x eqn:?; simpl in H; try discriminate
         | (if ?c then _ else _) = _ => destruct c eqn:?; simpl in H; try discriminate
         | match ?l with [] => _ | _ :: _ => _ end = _ =>
             destruct l eqn:?; simpl in H; try discriminate
         end.

(* --------------------------------------------------------------------- *)
(** *** Dicts of lists and counters *)

Lemma lookup_list_extend_at {V} (k key : string) (new : list V)
    (d : list (string * list V)) :
  lookup_list k (extend_at key new d)
  = lookup_list k d ++ (if String.eqb key k then new else []).
Proof.
  unfold lookup_list.
  induction d as [|[k' v] rest IH]; simpl.
  - destruct (String.eqb key k); reflexivity.
  - destruct (String.eqb k' key) eqn:E; simpl.
    + apply String.eqb_eq in E. subst k'.
      destruct (String.eqb key k); [reflexivity | now rewrite app_nil_r].
    + destruct (String.eqb k' k) eqn:E'; simpl; [|exact IH].
      apply String.eqb_eq in E'. subst k'. rewrite String.eqb_sym in E.
      rewrite E. now rewrite app_nil_r.
Qed.

Lemma count_of_bump_other (name term : string) (counter : list (string * nat)) :
  String.eqb term name = false ->
  count_of name (bump term counter) = count_of name counter.
Proof.
  intros Hne. unfold count_of.
  induction counter as [|[t n] rest IH]; simpl.
  - now rewrite Hne.
  - destruct (String.eqb t term) eqn:E; simpl.
    + apply String.eqb_eq in E. subst t. now rewrite Hne.
    + destruct (String.eqb t name); [reflexivity | exact IH].
Qed.

(* --------------------------------------------------------------------- *)
(** *** A chunk size that is not positive *)

(* --------------------------------------------------------------------- *)
(** *** What the part loop can raise *)

Lemma add_part_keeps (parts : list json) :
  forall acc, foldM Parts.add_part parts acc = Ok (acc ++ kept_texts parts).
Proof.
  induction parts as [|part parts IH]; intros acc; simpl.
  - now rewrite app_nil_r.
  - unfold Parts.add_part at 1.
    destruct part as [| b | q | s | l | fields]; simpl;
      try (rewrite IH; reflexivity).
    + rewrite IH. now rewrite <- app_assoc.
    + unfold get, get_or.
      destruct (lookup "text" fields) as [t|]; simpl.
      * destruct (truthy t); simpl; rewrite IH; [now rewrite <- app_assoc | reflexivity].
      * rewrite IH. reflexivity.
Qed.

Lemma as_strings_ok_iff (xs : list json) :
  is_ok (as_strings xs) = forallb is_str xs.
Proof.
  induction xs as [|x xs IH]; simpl; [reflexivity|].
  destruct x; simpl; try reflexivity.
  rewrite <- IH. destruct (as_strings xs); reflexivity.
Qed.

Lemma as_strings_raises (xs : list json) (e : exn) :
  as_strings xs = Raise e -> e = TypeError.
Proof.
  induction xs as [|x xs IH]; simpl; [discriminate|].
  destruct x; simpl; try (now intros [= <-]).
  destruct (as_strings xs); simpl; [discriminate|].
  intros [= <-]. now apply IH.
Qed.

(** X2. On a list of parts, [safe_extract_content] (and the same loop in
    the later scripts) joins the string parts and the truthy ['text'] of
    the dict parts, passing over everything else. It returns exactly when
    each of those texts is a string, and the only exception it can raise
    is the [TypeError] of [' '.join]; the part loop itself never fails. *)
Theorem safe_extract_content_on_lists (parts : list json) :
  ChunkProcessor.safe_extract_content (JArr parts) = join (kept_texts parts)
  /\ Parts.flatten (JArr parts) = join (kept_texts parts)
  /\ is_ok (ChunkProcessor.safe_extract_content (JArr parts))
     = forallb is_str (kept_texts parts)
  /\ forall e,
       ChunkProcessor.safe_extract_content (JArr parts) = Raise e -> e = TypeError.
Proof.
  assert (E : ChunkProcessor.safe_extract_content (JArr parts)
              = join (kept_texts parts)).
  { change (ChunkProcessor.safe_extract_content (JArr parts))
      with (Parts.flatten (JArr parts)).
    unfold Parts.flatten. simpl. now rewrite add_part_keeps. }
  split; [exact E|]. split; [exact E|]. rewrite E. unfold join. split.
  - rewrite <- as_strings_ok_iff. destruct (as_strings (kept_texts parts)); reflexivity.
  - intros e. destruct (as_strings (kept_texts parts)) eqn:A; simpl; [discriminate|].
    intros [= <-]. now apply as_strings_raises in A.
Qed.

(* --------------------------------------------------------------------- *)
(** *** What the extractors let through *)

Lemma user_content_of_node_step (messages : list string) (node : json)
    (messages' : list string) :
  ChunkProcessor.user_content_of_node messages node = Ok messages' ->
  messages' = messages
  \/ exists text, messages' = messages ++ [text] /\ 50 < String.length text.
Proof.
  unfold ChunkProcessor.user_content_of_node. intros H. unbind H;
    try (injection H as <-; now left).
  injection H as <-. right. eexists. split; [reflexivity|].
  match goal with
  | E : (_ && (50 <? _)) = true |- _ =>
      apply andb_true_iff in E as [_ E]; now apply Nat.ltb_lt in E
  end.
Qed.

(** X3. Every text [extract_user_content] returns is longer than 50
    characters, and it returns at most one text per node of the mapping. *)
Theorem extract_user_content_longer_than_50 (conversation : json)
    (messages : list string)
    (Hret : ChunkProcessor.extract_user_content conversation = Ok messages) :
  Forall (fun text => 50 < String.length text) messages
  /\ forall nodes,
       get_or conversation "mapping" (JObj []) = Ok (JObj nodes) ->
       List.length messages <= List.length nodes.
Proof.
  unfold ChunkProcessor.extract_user_content in Hret.
  destruct (get_or conversation "mapping" (JObj [])) as [mapping|] eqn:M;
    simpl in Hret; [|discriminate].
  destruct (items mapping) as [nodes|] eqn:I; simpl in Hret; [|discriminate].
  assert (G : forall (xs : list (string * json)) acc out,
             foldM (fun messages kv =>
                      ChunkProcessor.user_content_of_node messages (snd kv))
                   xs acc = Ok out ->
             Forall (fun text => 50 < String.length text) acc ->
             Forall (fun text => 50 < String.length text) out
             /\ List.length out <= List.length acc + List.length xs).
  { induction xs as [|x xs IH]; simpl; intros acc out H Hacc.
    - injection H as <-. split; [assumption | lia].
    - destruct (ChunkProcessor.user_content_of_node acc (snd x)) as [acc'|] eqn:E;
        simpl in H; [|discriminate].
      apply user_content_of_node_step in E as [-> | (text & -> & Hlen)].
      + destruct (IH _ _ H Hacc). split; [assumption | lia].
      + destruct (IH _ _ H) as [F L].
        * apply Forall_app. split; [assumption | now constructor].
        * split; [assumption|]. rewrite length_app in L. simpl in L. lia.
  }
  destruct (G nodes [] messages Hret (Forall_nil _)) as [F L].
  split; [exact F|].
  intros nodes' [= ->]. injection I as <-. simpl in L. exact L.
Qed.

Lemma extract_user_content_longer_than_50_witness :
  Forall (fun text => 50 < String.length text)
    ["We need an upstream system that scales the booking workflow for the club"]
  /\ forall nodes,
       get_or Samples.planning "mapping" (JObj []) = Ok (JObj nodes) ->
       List.length
         ["We need an upstream system that scales the booking workflow for the club"]
       <= List.length nodes.
Proof.
  apply (extract_user_content_longer_than_50 Samples.planning).
  reflexivity.
Defined.

(* --------------------------------------------------------------------- *)
(** *** Grouping by similarity *)

Lemma sum_without_empty_groups (groups : list (string * list ChunkProcessor.entry)) :
  list_sum (map group_size
              (filter (fun g => match snd g with [] => false | _ => true end) groups))
  = list_sum (map group_size groups).
Proof.
  induction groups as [|[name found] rest IH]; simpl; [reflexivity|].
  destruct found; simpl; [exact IH | now rewrite IH].
Qed.

Lemma group_of_named (item : ChunkProcessor.entry) :
  In (ChunkProcessor.group_of item) ChunkProcessor.group_names.
Proof.
  unfold ChunkProcessor.group_of, ChunkProcessor.group_names.
  repeat match goal with
         | |- context [if ?c then _ else _] => destruct c
         end; simpl; auto 6.
Qed.

Lemma every_item_in_one_group (found : list ChunkProcessor.entry) :
  list_sum
    (map group_size
       (map (fun name =>
               (name,
                filter (fun item => String.eqb (ChunkProcessor.group_of item) name)
                  found))
          ChunkProcessor.group_names))
  = List.length found.
Proof.
  induction found as [|item rest IH]; [reflexivity|].
  pose proof (group_of_named item) as Hname.
  unfold ChunkProcessor.group_names, group_size in *.
  cbn [map list_sum snd filter In] in *.
  destruct Hname as [H|[H|[H|[H|[H|[]]]]]]; rewrite <- H;
    cbn [String.eqb Ascii.eqb Bool.eqb length];
    unfold list_sum in *; cbn [fold_right] in *; lia.
Qed.

(** X4. [group_by_similarity] sorts every item into exactly one of its five
    groups: the sizes of the groups it returns add up to the number of
    items, no group it returns is empty, and each item sits under the
    heading the first matching keyword test gives it. *)
Theorem group_by_similarity_partitions (found : list ChunkProcessor.entry) :
  list_sum (map group_size (ChunkProcessor.group_by_similarity found))
  = List.length found
  /\ Forall (fun g =>
               snd g <> []
               /\ In (fst g) ChunkProcessor.group_names
               /\ Forall (fun item => ChunkProcessor.group_of item = fst g) (snd g))
       (ChunkProcessor.group_by_similarity found).
Proof.
  unfold ChunkProcessor.group_by_similarity. split.
  - rewrite sum_without_empty_groups. apply every_item_in_one_group.
  - apply Forall_forall. intros [name members] Hin.
    apply filter_In in Hin as [Hin Hne]. simpl in Hne.
    apply in_map_iff in Hin as (name' & [= <- <-] & Hname).
    simpl. repeat split.
    + intros E. rewrite E in Hne. discriminate.
    + exact Hname.
    + apply Forall_forall. intros item Hitem.
      apply filter_In in Hitem as [_ Heq]. now apply String.eqb_eq in Heq.
Qed.

(* --------------------------------------------------------------------- *)
(** *** Example caps *)

Lemma substring_length_le (i n : nat) (s : string) :
  String.length (substring i n s) <= n.
Proof.
  revert i n. induction s as [|c s IH]; intros i n.
  - destruct i, n; simpl; lia.
  - destruct i as [|i]; destruct n as [|n]; simpl; try lia.
    + specialize (IH 0 n). lia.
    + apply (IH i 0).
    + apply (IH i (S n)).
Qed.

Lemma append_length (a b : string) :
  String.length (a ++ b) = String.length a + String.length b.
Proof. induction a as [|c a IH]; simpl; [reflexivity | now rewrite IH]. Qed.

Lemma scan_pattern_capped (content : string) (t t' : ConversationAnalyzer.tally)
    (p : string * string) :
  capped t -> ConversationAnalyzer.scan_pattern content t p = Ok t' -> capped t'.
Proof.
  unfold ConversationAnalyzer.scan_pattern. intros Hcap H.
  destruct (Re.compiled (snd p)) as [r|]; simpl in H; [|discriminate].
  destruct (Re.search Re.I r content); [|now injection H as <-].
  injection H as <-. intros name. destruct (Hcap name) as (H3 & Hc & Hl).
  cbn [ConversationAnalyzer.pattern_counts ConversationAnalyzer.pattern_examples].
  destruct (String.eqb (fst p) name) eqn:E.
  - apply String.eqb_eq in E. subst name. rewrite count_of_bump.
    destruct (List.length
                (lookup_list (fst p)
                   (extend_at (fst p) [] (ConversationAnalyzer.pattern_examples t)))
              <? 3) eqn:L.
    + apply Nat.ltb_lt in L.
      rewrite !lookup_list_extend_at, String.eqb_refl, !length_app in *.
      simpl in *.
      repeat split; try lia.
      rewrite app_nil_r. apply Forall_app. split; [assumption|].
      constructor; [|constructor].
      rewrite append_length. unfold take.
      pose proof (substring_length_le 0 300 content). simpl. lia.
    + rewrite lookup_list_extend_at, String.eqb_refl, app_nil_r.
      repeat split; try assumption; lia.
  - rewrite count_of_bump_other by assumption.
    destruct (List.length
                (lookup_list (fst p)
                   (extend_at (fst p) [] (ConversationAnalyzer.pattern_examples t)))
              <? 3);
      rewrite !lookup_list_extend_at, E, ?app_nil_r; repeat split; assumption.
Qed.

(** X5. [extract_thinking_patterns] never keeps more than three examples
    for a pattern, never more examples than it counted messages for that
    pattern, and every example is at most 303 characters long (300 of the
    message and the dots). *)
Theorem thinking_pattern_examples_capped (repr : json -> string)
    (conversations : list json) (t : ConversationAnalyzer.tally)
    (Hret : ConversationAnalyzer.extract_thinking_patterns repr conversations = Ok t) :
  capped t.
Proof.
  unfold ConversationAnalyzer.extract_thinking_patterns in Hret.
  eapply (foldM_invariant capped); [| |exact Hret].
  - intros acc conv acc' Hacc H. cbv beta in H.
    destruct (ConversationAnalyzer.extract_messages repr conv) as [messages|];
      cbn [bind] in H; [|discriminate].
    eapply (foldM_invariant capped); [| exact Hacc | exact H].
    intros acc1 msg acc2 Hacc1 H1. cbv beta in H1.
    destruct (eq_str (ConversationAnalyzer.role msg) "user");
      [|now injection H1 as <-].
    eapply (foldM_invariant capped); [| exact Hacc1 | exact H1].
    intros a p a' Ha Hp. eapply scan_pattern_capped; eauto.
  - intros name. simpl. repeat split; auto.
Qed.

Lemma thinking_pattern_examples_capped_witness :
  capped
    {| ConversationAnalyzer.pattern_counts := [("recursive_thinking", 1)];
       ConversationAnalyzer.pattern_examples :=
         [("recursive_thinking",
           ["the feedback loop in booking feeds a second feedback loop in billing..."])] |}.
Proof.
  apply (thinking_pattern_examples_capped (fun _ => "") [Samples.two_loops]).
  vm_compute. reflexivity.
Defined.

(* --------------------------------------------------------------------- *)
(** *** Months add up *)

Section UpdateMonth.
Variable month : string.
Variable msg : FinalAnalyzer.mike_message.
Variable f : FinalAnalyzer.month_data -> FinalAnalyzer.month_data.
Hypothesis f_adds :
  forall data,
    FinalAnalyzer.month_messages (f data)
    = FinalAnalyzer.month_messages data ++ [msg].

Lemma update_month_counts (d : list (string * FinalAnalyzer.month_data)) :
  count_sum (FinalAnalyzer.update_month month f d) = S (count_sum d)
  /\ length_sum (FinalAnalyzer.update_month month f d)
     = length_sum d + FinalAnalyzer.length msg.
Proof.
  unfold count_sum, length_sum, FinalAnalyzer.message_count,
    FinalAnalyzer.total_length.
  induction d as [|[k v] rest [IH1 IH2]]; simpl.
  - rewrite f_adds. simpl. lia.
  - destruct (String.eqb k month); simpl.
    + rewrite f_adds, map_app, length_app, list_sum_app. simpl. lia.
    + rewrite IH1, IH2. lia.
Qed.

Lemma update_month_keys (d : list (string * FinalAnalyzer.month_data)) :
  NoDup (map fst d) -> NoDup (map fst (FinalAnalyzer.update_month month f d)).
Proof.
  assert (K : forall d k,
             In k (map fst (FinalAnalyzer.update_month month f d)) ->
             k = month \/ In k (map fst d)).
  { intros d0. induction d0 as [|[k' v] rest IH]; simpl; intros k Hin.
    - destruct Hin as [<-|[]]. now left.
    - destruct (String.eqb k' month); simpl in Hin.
      + now right.
      + destruct Hin as [<-|Hin]; [right; now left|].
        apply IH in Hin as [->|Hin]; [now left | right; now right]. }
  induction d as [|[k v] rest IH]; simpl; intros Hnd.
  - constructor; [intros [] | constructor].
  - inversion Hnd as [|? ? Hk Hrest]; subst.
    destruct (String.eqb k month) eqn:E; simpl.
    + now constructor.
    + constructor; [|now apply IH].
      intros Hin. apply K in Hin as [->|Hin]; [|contradiction].
      rewrite String.eqb_refl in E. discriminate.
Qed.

End UpdateMonth.

Lemma track_evolution_totals (local_month : Q -> result string)
    (msgs : list FinalAnalyzer.mike_message) :
  forall d0 d,
    foldM (FinalAnalyzer.track_message local_month) msgs d0 = Ok d ->
    count_sum d = count_sum d0 + List.length (filter Shape.has_time msgs)
    /\ length_sum d
       = length_sum d0
         + list_sum (map FinalAnalyzer.length (filter Shape.has_time msgs))
    /\ (NoDup (map fst d0) -> NoDup (map fst d)).
Proof.
  induction msgs as [|m msgs IH]; simpl; intros d0 d H.
  - injection H as <-. repeat split; auto; lia.
  - destruct (Shape.has_time m) eqn:T;
      [|rewrite track_message_without_time in H by assumption; now apply IH].
    unfold FinalAnalyzer.track_message at 1 in H.
    unfold Shape.has_time in T. rewrite T in H.
    destruct (FinalAnalyzer.month_of local_month (FinalAnalyzer.timestamp m))
      as [month|]; simpl in H; [|discriminate].
    apply IH in H as (H1 & H2 & H3).
    match type of H1 with
    | context [FinalAnalyzer.update_month _ ?f _] =>
        assert (Hf : forall data,
                   FinalAnalyzer.month_messages (f data)
                   = FinalAnalyzer.month_messages data ++ [m])
          by reflexivity;
        destruct (update_month_counts month m f Hf d0) as [C L];
        pose proof (update_month_keys month f d0) as K
    end.
    rewrite H1, H2, C, L. simpl. repeat split; auto; lia.
Qed.

(** X6. [track_evolution] counts every message that has a truthy time in
    exactly one month: over the months of [monthly_data] the message
    counts add up to the number of such messages and the recorded lengths
    add up to theirs, and no month appears twice. *)
Theorem track_evolution_counts_each_once (local_month : Q -> result string)
    (all_mike_messages : list FinalAnalyzer.mike_message)
    (monthly_data : list (string * FinalAnalyzer.month_data))
    (Hret : FinalAnalyzer.track_evolution local_month all_mike_messages
            = Ok monthly_data) :
  count_sum monthly_data
  = List.length (filter Shape.has_time all_mike_messages)
  /\ length_sum monthly_data
     = list_sum (map FinalAnalyzer.length (filter Shape.has_time all_mike_messages))
  /\ NoDup (map fst monthly_data).
Proof.
  apply track_evolution_totals in Hret as (H1 & H2 & H3).
  repeat split; [exact H1 | exact H2 | apply H3; constructor].
Qed.

Lemma track_evolution_counts_each_once_witness :
  let msg := {| FinalAnalyzer.content :=
                  "We need an upstream system that scales the booking workflow for the club";
                FinalAnalyzer.title := JStr "Planning";
                FinalAnalyzer.timestamp := JNum 1721001600;
                FinalAnalyzer.length := 72 |} in
  let data := [("2024-07",
                {| FinalAnalyzer.month_messages := [msg];
                   FinalAnalyzer.key_topics := [("systems", 1)] |})] in
  count_sum data = List.length (filter Shape.has_time [msg])
  /\ length_sum data
     = list_sum (map FinalAnalyzer.length (filter Shape.has_time [msg]))
  /\ NoDup (map fst data).
Proof.
  intros msg data.
  apply (track_evolution_counts_each_once Utc.local_month [msg] data).
  vm_compute. reflexivity.
Defined.

(* --------------------------------------------------------------------- *)
(** *** What is printed as an insight *)

Lemma show_unique_bounds (items : list FinalAnalyzer.found_insight) :
  forall seen,
    List.length (FinalAnalyzer.show_unique items seen) <= List.length items
    /\ Forall (fun i => 30 < String.length (lower (FinalAnalyzer.insight i))
                        /\ In i items)
         (FinalAnalyzer.show_unique items seen).
Proof.
  induction items as [|item rest IH]; intros seen; simpl.
  - split; [lia | constructor].
  - destruct (negb (existsb (String.eqb (lower (FinalAnalyzer.insight item))) seen)
              && (30 <? String.length (lower (FinalAnalyzer.insight item)))) eqn:E.
    + destruct (IH (lower (FinalAnalyzer.insight item) :: seen)) as [L F].
      split; [simpl; lia|]. constructor.
      * apply andb_true_iff in E as [_ E]. apply Nat.ltb_lt in E.
        split; [exact E | now left].
      * eapply Forall_impl; [|exact F]. intros i [? ?]. split; [|right]; assumption.
    + destruct (IH seen) as [L F]. split; [lia|].
      eapply Forall_impl; [|exact F]. intros i [? ?]. split; [|right]; assumption.
Qed.

(** X7. [find_unique_insights] prints at most 30 insights, each with a
    lower-cased text longer than 30 characters (the length the code
    tests), and only insights found among the first 30 matches collected:
    what the patterns match later in the corpus is never shown. *)
Theorem find_unique_insights_bounds
    (all_mike_messages : list FinalAnalyzer.mike_message)
    (printed : list FinalAnalyzer.found_insight)
    (Hret : FinalAnalyzer.find_unique_insights all_mike_messages = Ok printed) :
  List.length printed <= 30
  /\ exists insights,
       FinalAnalyzer.collect_insights all_mike_messages = Ok insights
       /\ Forall (fun i => 30 < String.length (lower (FinalAnalyzer.insight i))
                           /\ In i (firstn 30 insights)) printed.
Proof.
  unfold FinalAnalyzer.find_unique_insights in Hret.
  destruct (FinalAnalyzer.collect_insights all_mike_messages) as [insights|];
    cbn [bind] in Hret; [|discriminate].
  assert (E : printed = FinalAnalyzer.show_unique (firstn 30 insights) [])
    by congruence.
  rewrite E. clear E Hret.
  destruct (show_unique_bounds (firstn 30 insights) []) as [L F].
  split.
  - pose proof (firstn_le_length 30 insights). rewrite length_firstn in L. lia.
  - exists insights. split; [reflexivity | exact F].
Qed.

Lemma find_unique_insights_bounds_witness :
  List.length
    [ {| FinalAnalyzer.insight := "the booking flow really works for every member";
         FinalAnalyzer.i_title := JStr "Retro";
         FinalAnalyzer.i_timestamp := JNum 1721001600 |} ] <= 30
  /\ exists insights,
       FinalAnalyzer.collect_insights
         [ {| FinalAnalyzer.content :=
                "turns out the booking flow really works for every member";
              FinalAnalyzer.title := JStr "Retro";
              FinalAnalyzer.timestamp := JNum 1721001600;
              FinalAnalyzer.length := 56 |} ] = Ok insights
       /\ Forall (fun i => 30 < String.length (lower (FinalAnalyzer.insight i))
                           /\ In i (firstn 30 insights))
            [ {| FinalAnalyzer.insight :=
                   "the booking flow really works for every member";
                 FinalAnalyzer.i_title := JStr "Retro";
                 FinalAnalyzer.i_timestamp := JNum 1721001600 |} ].
Proof.
  apply (find_unique_insights_bounds
           [ {| FinalAnalyzer.content :=
                  "turns out the booking flow really works for every member";
                FinalAnalyzer.title := JStr "Retro";
                FinalAnalyzer.timestamp := JNum 1721001600;
                FinalAnalyzer.length := 56 |} ]).
  vm_compute. reflexivity.
Defined.

(* --------------------------------------------------------------------- *)
(** *** What [load_and_extract_all] stores *)

Lemma rstrip_idempotent (s : string) : rstrip (rstrip s) = rstrip s.
Proof.
  induction s as [|c s IH]; simpl; [reflexivity|].
  destruct (rstrip s) as [|k kept] eqn:E.
  - destruct (is_space c) eqn:Sp; simpl; [reflexivity | now rewrite Sp].
  - change (rstrip (String c (String k kept)))
      with (match rstrip (String k kept) with
            | EmptyString => if is_space c then EmptyString else String c EmptyString
            | String a b => String c (String a b)
            end).
    now rewrite IH.
Qed.

Lemma lstrip_rstrip_lstrip (s : string) :
  lstrip (rstrip (lstrip s)) = rstrip (lstrip s).
Proof.
  assert (H : lstrip s = EmptyString
              \/ exists c r, lstrip s = String c r /\ is_space c = false).
  { induction s as [|c s IH]; simpl; [now left|].
    destruct (is_space c) eqn:Sp; [exact IH|]. right. now exists c, s. }
  destruct H as [-> | (c & r & -> & Sp)]; [reflexivity|].
  simpl. destruct (rstrip r); rewrite ?Sp; simpl; now rewrite Sp.
Qed.

Lemma strip_idempotent (s : string) : strip (strip s) = strip s.
Proof.
  unfold strip. now rewrite lstrip_rstrip_lstrip, rstrip_idempotent.
Qed.

Lemma final_message_of_node_stored_well (title create_time node : json)
    (m : FinalAnalyzer.mike_message) :
  FinalAnalyzer.message_of_node title create_time node = Ok (Some m) ->
  stored_well m /\ FinalAnalyzer.title m = title.
Proof.
  unfold FinalAnalyzer.message_of_node. intros H. unbind H.
  injection H as <-. unfold stored_well. simpl.
  match goal with
  | E : (_ && (20 <? _)) = true |- _ =>
      apply andb_true_iff in E as [_ E]; apply Nat.ltb_lt in E
  end.
  repeat split; auto using strip_idempotent.
Qed.

(** X8. Every message [load_and_extract_all] stores carries its own length
    in ['length'], is longer than 20 characters, and has no white space
    left at either end of its text. *)
Theorem load_and_extract_all_stores_well (conversations : list json)
    (all_mike_messages : list FinalAnalyzer.mike_message)
    (Hret : FinalAnalyzer.load_and_extract_all conversations = Ok all_mike_messages) :
  Forall stored_well all_mike_messages.
Proof.
  unfold FinalAnalyzer.load_and_extract_all in Hret.
  eapply (foldM_invariant (Forall stored_well)); [| constructor | exact Hret].
  intros acc conv acc' Hacc H. unfold FinalAnalyzer.extract_conversation in H.
  unbind H. apply collect_flat_map in H. subst acc'.
  apply Forall_app. split; [assumption|].
  apply Forall_forall. intros m Hin. apply in_flat_map in Hin as (kv & _ & Hin).
  destruct (FinalAnalyzer.message_of_node _ _ (snd kv)) as [[m'|]|] eqn:E;
    simpl in Hin; try contradiction.
  destruct Hin as [<-|[]]. now apply final_message_of_node_stored_well in E.
Qed.

Lemma load_and_extract_all_stores_well_witness :
  Forall stored_well
    [ {| FinalAnalyzer.content := "automate the booking flow";
         FinalAnalyzer.title := JStr "Lengths";
         FinalAnalyzer.timestamp := JNum 1721001600;
         FinalAnalyzer.length := 25 |} ].
Proof.
  apply (load_and_extract_all_stores_well [Samples.three_lengths]).
  reflexivity.
Defined.

(* --------------------------------------------------------------------- *)
(** *** The time a message is grouped by *)








(* --------------------------------------------------------------------- *)
(** *** What a run of the chunk processor adds up to *)

Lemma unique_terms_fold (text : string) (patterns : list string) :
  forallb compiles patterns = true ->
  forall acc, exists out,
    foldM (fun found_terms pattern =>
             r <- Re.compiled pattern ;;
             Ok (found_terms ++ Re.findall Re.I r text))
          patterns acc = Ok out.
Proof.
  induction patterns as [|p ps IH]; simpl; intros H acc; [eauto|].
  apply andb_true_iff in H as [Hp Hps]. unfold compiles in Hp.
  unfold Re.compiled at 1. destruct (Re.compile p); [|discriminate].
  simpl. now apply IH.
Qed.

Lemma extract_unique_terms_returns (text : string) :
  ChunkProcessor.extract_unique_terms text = Ok (message_terms text).
Proof.
  unfold message_terms.
  destruct (unique_terms_fold text ChunkProcessor.unique_patterns) with (acc := @nil string)
    as [out E]; [vm_compute; reflexivity|].
  unfold ChunkProcessor.extract_unique_terms. now rewrite E.
Qed.

Lemma count_phrases (terms : list string) (self : ChunkProcessor.state) :
  ChunkProcessor.forM terms (fun _ term => ChunkProcessor.count_phrase term) tt self
  = (Ok tt,
     {| ChunkProcessor.global_patterns := ChunkProcessor.global_patterns self;
        ChunkProcessor.unique_phrases :=
          count_terms terms (ChunkProcessor.unique_phrases self) |}).
Proof.
  revert self. induction terms as [|t terms IH]; intros self; simpl.
  - now destruct self.
  - unfold ChunkProcessor.bindM, ChunkProcessor.count_phrase at 1. simpl.
    now rewrite IH.
Qed.

Lemma process_message_adds (title timestamp : json)
    (cp : list (string * list ChunkProcessor.entry)) (msg : string)
    (self : ChunkProcessor.state) :
  ChunkProcessor.process_message title timestamp cp msg self
  = (Ok (apply_entries (message_entries title timestamp msg) cp),
     {| ChunkProcessor.global_patterns := ChunkProcessor.global_patterns self;
        ChunkProcessor.unique_phrases :=
          count_terms (message_terms msg) (ChunkProcessor.unique_phrases self) |}).
Proof.
  unfold ChunkProcessor.process_message, ChunkProcessor.bindM,
    ChunkProcessor.lift, ChunkProcessor.ret.
  rewrite extract_unique_terms_returns, count_phrases.
  unfold message_entries, apply_entries.
  destruct (ChunkProcessor.contains_pattern msg
              ["recursive"; "upstream"; "downstream"; "compress"; "abstract"]);
    destruct (ChunkProcessor.contains_pattern msg
                ["automat"; "system"; "workflow"; "process"; "scale"]);
    reflexivity.
Qed.

Lemma process_messages_add (title timestamp : json) (msgs : list string) :
  forall cp self,
    ChunkProcessor.forM msgs (ChunkProcessor.process_message title timestamp) cp self
    = (Ok (apply_entries (flat_map (message_entries title timestamp) msgs) cp),
       {| ChunkProcessor.global_patterns := ChunkProcessor.global_patterns self;
          ChunkProcessor.unique_phrases :=
            count_terms (flat_map message_terms msgs)
              (ChunkProcessor.unique_phrases self) |}).
Proof.
  induction msgs as [|msg msgs IH]; intros cp self; simpl.
  - now destruct self.
  - unfold ChunkProcessor.bindM. rewrite process_message_adds, IH. simpl.
    unfold apply_entries, count_terms. now rewrite !fold_left_app.
Qed.

Lemma process_conversation_reads_first
    (cp : list (string * list ChunkProcessor.entry)) (conv : json)
    (self : ChunkProcessor.state) :
  ChunkProcessor.process_conversation cp conv self
  = match conversation_inputs conv with
    | Ok _ =>
        (Ok (apply_entries (conversation_entries conv) cp),
         {| ChunkProcessor.global_patterns := ChunkProcessor.global_patterns self;
            ChunkProcessor.unique_phrases :=
              count_terms (conversation_terms conv)
                (ChunkProcessor.unique_phrases self) |})
    | Raise e => (Raise e, self)
    end.
Proof.
  unfold ChunkProcessor.process_conversation, conversation_entries,
    conversation_terms, conversation_inputs, ChunkProcessor.bindM,
    ChunkProcessor.lift.
  destruct (get_or conv "title" (JStr "Untitled")) as [title|]; simpl; [|reflexivity].
  destruct (get_or conv "create_time" (JNum 0)) as [timestamp|]; simpl; [|reflexivity].
  destruct (ChunkProcessor.extract_user_content conv) as [msgs|]; simpl; [|reflexivity].
  apply process_messages_add.
Qed.

Lemma readable_inputs (conv : json) :
  readable conv = is_ok (conversation_inputs conv).
Proof.
  unfold readable. rewrite process_conversation_reads_first.
  now destruct (conversation_inputs conv).
Qed.

Section DictFacts.
Context {V : Type}.

Lemma lookup_list_apply_entries (k : string) (ops : list (string * V)) :
  forall d, lookup_list k (apply_entries ops d) = lookup_list k d ++ of_category k ops.
Proof.
  unfold apply_entries, of_category.
  induction ops as [|[key v] ops IH]; intros d; simpl.
  - now rewrite app_nil_r.
  - rewrite IH, lookup_list_extend_at.
    destruct (String.eqb key k); simpl; now rewrite <- app_assoc.
Qed.

Lemma entries_in_extend_at (key : string) (new : list V)
    (d : list (string * list V)) :
  entries_in (extend_at key new d) = entries_in d + List.length new.
Proof.
  unfold entries_in. induction d as [|[k v] rest IH]; simpl; [lia|].
  destruct (String.eqb k key); simpl; [rewrite length_app | rewrite IH]; lia.
Qed.

Lemma entries_in_apply_entries (ops : list (string * V)) :
  forall d, entries_in (apply_entries ops d) = entries_in d + List.length ops.
Proof.
  unfold apply_entries.
  induction ops as [|op ops IH]; intros d; simpl; [lia|].
  rewrite IH, entries_in_extend_at. simpl. lia.
Qed.

Lemma entries_in_store_all (found : list (string * list V)) :
  forall d, entries_in (store_all found d) = entries_in d + entries_in found.
Proof.
  unfold store_all.
  induction found as [|kv found IH]; intros d; simpl.
  - unfold entries_in. simpl. lia.
  - rewrite IH, entries_in_extend_at. unfold entries_in. simpl. lia.
Qed.

Lemma keys_extend_at_present (key : string) (new : list V)
    (d : list (string * list V)) :
  In key (map fst d) -> map fst (extend_at key new d) = map fst d.
Proof.
  induction d as [|[k v] rest IH]; simpl; [intros []|].
  intros H. destruct (String.eqb k key) eqn:E; simpl; [reflexivity|].
  f_equal. apply IH. destruct H as [->|H]; [|exact H].
  rewrite String.eqb_refl in E. discriminate.
Qed.

Lemma keys_apply_entries (ops : list (string * V)) :
  forall d,
    Forall (fun op => In (fst op) (map fst d)) ops ->
    map fst (apply_entries ops d) = map fst d.
Proof.
  unfold apply_entries.
  induction ops as [|op ops IH]; intros d H; simpl; [reflexivity|].
  inversion H as [|? ? Hop Hops]; subst.
  rewrite IH; rewrite keys_extend_at_present by assumption; auto.
Qed.

Lemma lookup_list_absent (k : string) (d : list (string * list V)) :
  ~ In k (map fst d) -> lookup_list k d = [].
Proof.
  unfold lookup_list. induction d as [|[k' v] rest IH]; simpl; intros H; [reflexivity|].
  destruct (String.eqb k' k) eqn:E.
  - apply String.eqb_eq in E. subst. exfalso. apply H. now left.
  - apply IH. intros Hin. apply H. now right.
Qed.

Lemma lookup_list_store_all (k : string) (found : list (string * list V)) :
  NoDup (map fst found) ->
  forall d, lookup_list k (store_all found d) = lookup_list k d ++ lookup_list k found.
Proof.
  unfold store_all.
  induction found as [|[key v] found IH]; intros Hnd d; simpl.
  - now rewrite app_nil_r.
  - inversion Hnd as [|? ? Hkey Hrest]; subst.
    rewrite IH by assumption. rewrite lookup_list_extend_at.
    unfold lookup_list at 4. simpl.
    destruct (String.eqb key k) eqn:E.
    + apply String.eqb_eq in E. subst key.
      rewrite (lookup_list_absent k found) by assumption.
      now rewrite !app_nil_r.
    + fold (lookup_list k found). now rewrite app_nil_r.
Qed.

Lemma of_category_app (k : string) (a b : list (string * V)) :
  of_category k (a ++ b) = of_category k a ++ of_category k b.
Proof. unfold of_category. now rewrite filter_app, map_app. Qed.

End DictFacts.

Lemma message_entries_categories (title timestamp : json) (msg : string) :
  Forall (fun op => In (fst op) (map fst ChunkProcessor.chunk_patterns_0))
    (message_entries title timestamp msg).
Proof.
  unfold message_entries.
  destruct (ChunkProcessor.contains_pattern msg
              ["recursive"; "upstream"; "downstream"; "compress"; "abstract"]);
    destruct (ChunkProcessor.contains_pattern msg
                ["automat"; "system"; "workflow"; "process"; "scale"]);
    simpl; repeat (apply Forall_cons || apply Forall_nil); simpl; auto 6.
Qed.

Lemma conversation_entries_categories (convs : list json) :
  Forall (fun op => In (fst op) (map fst ChunkProcessor.chunk_patterns_0))
    (flat_map conversation_entries convs).
Proof.
  apply Forall_flat_map. apply Forall_forall. intros conv _.
  unfold conversation_entries.
  destruct (conversation_inputs conv) as [[[title timestamp] msgs]|]; [|constructor].
  apply Forall_flat_map. apply Forall_forall. intros msg _.
  apply message_entries_categories.
Qed.

Lemma conversations_add (convs : list json) :
  forallb readable convs = true ->
  forall cp self,
    ChunkProcessor.forM convs ChunkProcessor.process_conversation cp self
    = (Ok (apply_entries (flat_map conversation_entries convs) cp),
       {| ChunkProcessor.global_patterns := ChunkProcessor.global_patterns self;
          ChunkProcessor.unique_phrases :=
            count_terms (flat_map conversation_terms convs)
              (ChunkProcessor.unique_phrases self) |}).
Proof.
  induction convs as [|conv convs IH]; simpl; intros H cp self.
  - now destruct self.
  - apply andb_true_iff in H as [Hconv Hconvs].
    rewrite readable_inputs in Hconv.
    unfold ChunkProcessor.bindM. rewrite process_conversation_reads_first.
    destruct (conversation_inputs conv); [|discriminate].
    rewrite IH by assumption. simpl.
    unfold apply_entries, count_terms. now rewrite !fold_left_app.
Qed.

Lemma store_loop (found : list (string * list ChunkProcessor.entry)) :
  forall self,
    ChunkProcessor.forM found
      (fun _ kv => ChunkProcessor.store (fst kv) (snd kv)) tt self
    = (Ok tt,
       {| ChunkProcessor.global_patterns :=
            store_all found (ChunkProcessor.global_patterns self);
          ChunkProcessor.unique_phrases := ChunkProcessor.unique_phrases self |}).
Proof.
  induction found as [|kv found IH]; intros self; simpl.
  - now destruct self.
  - unfold ChunkProcessor.bindM, ChunkProcessor.store at 1. now rewrite IH.
Qed.

(** What a chunk of readable conversations leaves in the processor: under
    every category the entries found, in order, after what was there, and
    the phrase counts of its terms. *)
Lemma process_chunk_adds (convs : list json) (idx : nat)
    (self : ChunkProcessor.state) :
  forallb readable convs = true ->
  exists self',
    ChunkProcessor.process_chunk convs idx self = (Ok tt, self')
    /\ (forall k,
          lookup_list k (ChunkProcessor.global_patterns self')
          = lookup_list k (ChunkProcessor.global_patterns self)
            ++ of_category k (flat_map conversation_entries convs))
    /\ entries_in (ChunkProcessor.global_patterns self')
       = entries_in (ChunkProcessor.global_patterns self)
         + List.length (flat_map conversation_entries convs)
    /\ ChunkProcessor.unique_phrases self'
       = count_terms (flat_map conversation_terms convs)
           (ChunkProcessor.unique_phrases self).
Proof.
  intros H. unfold ChunkProcessor.process_chunk, ChunkProcessor.bindM.
  rewrite conversations_add by assumption. rewrite store_loop.
  eexists. split; [reflexivity|]. cbn [ChunkProcessor.global_patterns
                                        ChunkProcessor.unique_phrases].
  pose proof (conversation_entries_categories convs) as Hcat.
  set (found := flat_map conversation_entries convs) in *.
  repeat split.
  - intros k. rewrite lookup_list_store_all.
    + rewrite lookup_list_apply_entries. f_equal.
      assert (E : lookup_list k ChunkProcessor.chunk_patterns_0
                  = @nil ChunkProcessor.entry).
      { unfold lookup_list, ChunkProcessor.chunk_patterns_0. simpl.
        repeat match goal with
               | |- context [if ?c then _ else _] => destruct c
               end; reflexivity. }
      now rewrite E.
    + rewrite keys_apply_entries by assumption.
      unfold ChunkProcessor.chunk_patterns_0. simpl.
      repeat (apply NoDup_cons || apply NoDup_nil); simpl; intuition discriminate.
  - rewrite entries_in_store_all, entries_in_apply_entries. reflexivity.
Qed.




Lemma readable_chunks (chunks : list (list json)) :
  forallb readable (concat chunks) = true ->
  forallb (forallb readable) chunks = true.
Proof.
  induction chunks as [|chunk chunks IH]; simpl; [reflexivity|].
  rewrite forallb_app. intros H. apply andb_true_iff in H as [H1 H2].
  now rewrite H1, IH.
Qed.


(* --------------------------------------------------------------------- *)
(** *** A conversation that raises *)

Lemma conversations_stop (pre : list json) (conv : json) (e : exn) :
  forallb readable pre = true ->
  conversation_inputs conv = Raise e ->
  forall rest cp self,
    ChunkProcessor.forM (pre ++ conv :: rest)
      ChunkProcessor.process_conversation cp self
    = (Raise e,
       {| ChunkProcessor.global_patterns := ChunkProcessor.global_patterns self;
          ChunkProcessor.unique_phrases :=
            count_terms (flat_map conversation_terms pre)
              (ChunkProcessor.unique_phrases self) |}).
Proof.
  induction pre as [|x pre IH]; simpl; intros Hpre Hconv rest cp self.
  - unfold ChunkProcessor.bindM. rewrite process_conversation_reads_first, Hconv.
    now destruct self.
  - apply andb_true_iff in Hpre as [Hx Hpre]. rewrite readable_inputs in Hx.
    unfold ChunkProcessor.bindM. rewrite process_conversation_reads_first.
    destruct (conversation_inputs x); [|discriminate].
    rewrite (IH Hpre Hconv). simpl. unfold count_terms.
    now rewrite fold_left_app.
Qed.

Lemma chunks_stop (earlier : list (list json)) (pre : list json)
    (conv : json) (e : exn) :
  forallb (forallb readable) earlier = true ->
  forallb readable pre = true ->
  conversation_inputs conv = Raise e ->
  forall idx self, exists self',
    (forall rest later,
       ChunkProcessor.process_chunks idx
         (earlier ++ (pre ++ conv :: rest) :: later) self
       = (Raise e, self'))
    /\ (forall k,
          lookup_list k (ChunkProcessor.global_patterns self')
          = lookup_list k (ChunkProcessor.global_patterns self)
            ++ of_category k (flat_map conversation_entries (concat earlier)))
    /\ entries_in (ChunkProcessor.global_patterns self')
       = entries_in (ChunkProcessor.global_patterns self)
         + List.length (flat_map conversation_entries (concat earlier))
    /\ ChunkProcessor.unique_phrases self'
       = count_terms (flat_map conversation_terms (concat earlier ++ pre))
           (ChunkProcessor.unique_phrases self).
Proof.
  induction earlier as [|chunk earlier IH]; simpl;
    intros Hearlier Hpre Hconv idx self.
  - eexists. split; [|split; [|split]].
    + intros rest later.
      unfold ChunkProcessor.bindM at 1. unfold ChunkProcessor.process_chunk.
      unfold ChunkProcessor.bindM at 1.
      rewrite (conversations_stop pre conv e Hpre Hconv). reflexivity.
    + intros k. simpl. now rewrite app_nil_r.
    + simpl. lia.
    + reflexivity.
  - apply andb_true_iff in Hearlier as [Hchunk Hearlier].
    destruct (process_chunk_adds chunk idx self Hchunk) as (s1 & E1 & L1 & N1 & P1).
    destruct (IH Hearlier Hpre Hconv (S idx) s1) as (s2 & E2 & L2 & N2 & P2).
    exists s2. split; [|split; [|split]].
    + intros rest later. unfold ChunkProcessor.bindM. rewrite E1. apply E2.
    + intros k. rewrite L2, L1, flat_map_app, of_category_app.
      now rewrite app_assoc.
    + rewrite N2, N1, flat_map_app, length_app. lia.
    + rewrite P2, P1, <- app_assoc, (flat_map_app _ chunk). unfold count_terms.
      now rewrite fold_left_app.
Qed.

Lemma conversation_raises (conv : json) :
  (forall cp s,
     is_ok (fst (ChunkProcessor.process_conversation cp conv s)) = false) ->
  exists e,
    conversation_inputs conv = Raise e
    /\ forall cp s, ChunkProcessor.process_conversation cp conv s = (Raise e, s).
Proof.
  intros H.
  specialize (H ChunkProcessor.chunk_patterns_0 ChunkProcessor.init) as H0.
  rewrite process_conversation_reads_first in H0.
  destruct (conversation_inputs conv) as [i|e] eqn:E; [discriminate|].
  exists e. split; [reflexivity|]. intros cp s.
  now rewrite process_conversation_reads_first, E.
Qed.

(** C5, as the code has it. [process_chunk] and [process_all_chunks] catch
    nothing: when processing one conversation raises, the run raises that
    exception, and the state the processor is left in is the same whatever
    follows that conversation in the corpus, so neither the rest of its
    chunk nor any later chunk is processed and [consolidate_findings] is
    not reached.  When the conversations before it can be read, that state
    is known: [global_patterns] holds what the complete chunks before the
    failing one found and nothing of the failing chunk, whose entries are
    dropped with it, while the phrases of every conversation read before
    the failure are counted. *)
Theorem C5_exception_aborts_run (output_opens : bool) (c : nat)
    (before : list json) (conv : json) (self : ChunkProcessor.state)
    (Hc : 0 < c)
    (Hconv : forall cp s,
        is_ok (fst (ChunkProcessor.process_conversation cp conv s)) = false) :
  (exists e self',
     forall after,
       ChunkProcessor.process_all_chunks output_opens
         (before ++ conv :: after) (Z.of_nat c) self
       = (Raise e, self'))
  /\ (forallb readable before = true ->
      exists e self',
        (forall cp s,
           ChunkProcessor.process_conversation cp conv s = (Raise e, s))
        /\ (forall after,
              ChunkProcessor.process_all_chunks output_opens
                (before ++ conv :: after) (Z.of_nat c) self
              = (Raise e, self'))
        /\ (forall category,
              lookup_list category (ChunkProcessor.global_patterns self')
              = lookup_list category (ChunkProcessor.global_patterns self)
                ++ of_category category
                     (flat_map conversation_entries
                        (firstn (List.length before / c * c) before)))
        /\ entries_in (ChunkProcessor.global_patterns self')
           = entries_in (ChunkProcessor.global_patterns self)
             + List.length
                 (flat_map conversation_entries
                    (firstn (List.length before / c * c) before))
        /\ ChunkProcessor.unique_phrases self'
           = count_terms (flat_map conversation_terms before)
               (ChunkProcessor.unique_phrases self)).
Proof.
  split.
  - destruct (chunks_stop_at_conv conv Hconv
                (map (fun k => slice (k * c) (k * c + c) before)
                     (seq 0 (List.length before / c)))
                (skipn (List.length before / c * c) before) 0 self)
      as (e & s1 & H).
    exists e, s1. intros after.
    destruct (chunks_around before conv c Hc after) as (rest & later & Hch).
    unfold ChunkProcessor.process_all_chunks, ChunkProcessor.bindM,
      ChunkProcessor.lift.
    rewrite Hch. now rewrite H.
  - intros Hbefore.
    destruct (conversation_raises conv Hconv) as (e & Hin & Hraise).
    set (j := List.length before / c).
    set (earlier := map (fun k => slice (k * c) (k * c + c) before) (seq 0 j)).
    set (pre := skipn (j * c) before).
    assert (Hcat : concat earlier = firstn (j * c) before).
    { unfold earlier. rewrite <- (concat_slices c j before), map_map.
      reflexivity. }
    assert (Hall : concat earlier ++ pre = before).
    { rewrite Hcat. apply firstn_skipn. }
    assert (Hearlier : forallb (forallb readable) earlier = true).
    { apply readable_chunks. rewrite Hcat.
      rewrite <- (firstn_skipn (j * c) before), forallb_app in Hbefore.
      now apply andb_true_iff in Hbefore as [? _]. }
    assert (Hpre : forallb readable pre = true).
    { rewrite <- (firstn_skipn (j * c) before), forallb_app in Hbefore.
      now apply andb_true_iff in Hbefore as [_ ?]. }
    destruct (chunks_stop earlier pre conv e Hearlier Hpre Hin 0 self)
      as (s1 & E & L & N & P).
    exists e, s1. split; [exact Hraise|]. split; [|split; [|split]].
    + intros after.
      destruct (chunks_around before conv c Hc after) as (rest & later & Hch).
      unfold ChunkProcessor.process_all_chunks, ChunkProcessor.bindM,
        ChunkProcessor.lift.
      rewrite Hch. fold j. fold earlier. fold pre. now rewrite E.
    + intros category. rewrite L. now rewrite Hcat.
    + rewrite N. now rewrite Hcat.
    + rewrite P. now rewrite Hall.
Qed.

Lemma C5_exception_aborts_run_witness :
  0 < 2
  /\ (forall cp s,
        is_ok (fst (ChunkProcessor.process_conversation cp Samples.null_content s))
        = false)
  /\ forallb readable [Samples.planning; Samples.three_lengths; Samples.planning]
     = true
  /\ exists e self',
       (forall cp s,
          ChunkProcessor.process_conversation cp Samples.null_content s
          = (Raise e, s))
       /\ (forall after,
             ChunkProcessor.process_all_chunks true
               ([Samples.planning; Samples.three_lengths; Samples.planning]
                ++ Samples.null_content :: after)
               (Z.of_nat 2) ChunkProcessor.init
             = (Raise e, self'))
       /\ (forall category,
             lookup_list category (ChunkProcessor.global_patterns self')
             = lookup_list category
                 (ChunkProcessor.global_patterns ChunkProcessor.init)
               ++ of_category category
                    (flat_map conversation_entries
                       (firstn
                          (List.length
                             [Samples.planning; Samples.three_lengths;
                              Samples.planning] / 2 * 2)
                          [Samples.planning; Samples.three_lengths;
                           Samples.planning])))
       /\ entries_in (ChunkProcessor.global_patterns self')
          = entries_in (ChunkProcessor.global_patterns ChunkProcessor.init)
            + List.length
                (flat_map conversation_entries
                   (firstn
                      (List.length
                         [Samples.planning; Samples.three_lengths;
                          Samples.planning] / 2 * 2)
                      [Samples.planning; Samples.three_lengths;
                       Samples.planning]))
       /\ ChunkProcessor.unique_phrases self'
          = count_terms
              (flat_map conversation_terms
                 [Samples.planning; Samples.three_lengths; Samples.planning])
              (ChunkProcessor.unique_phrases ChunkProcessor.init).
Proof.
  split; [lia|]. split; [intros cp s; reflexivity|].
  split; [vm_compute; reflexivity|].
  apply (proj2 (C5_exception_aborts_run true 2
                  [Samples.planning; Samples.three_lengths; Samples.planning]
                  Samples.null_content ChunkProcessor.init
                  ltac:(lia) ltac:(intros cp s; reflexivity))).
  vm_compute. reflexivity.
Defined.

(** C5 does not hold as stated. With [content: null] in the second of three
    conversations of one chunk the run ends in [AttributeError]: the third
    conversation is never read, and the entries the first one found are
    dropped with the chunk (only its phrase count was already written).
    With one conversation per chunk the later chunk is not processed
    either. *)
Lemma C5_run_stops_at_null_content :
  ChunkProcessor.process_all_chunks true
    [Samples.planning; Samples.null_content; Samples.planning] 50
    ChunkProcessor.init
  = (Raise AttributeError,
     {| ChunkProcessor.global_patterns := [];
        ChunkProcessor.unique_phrases := [("upstream system", 1)] |})
  /\ ChunkProcessor.process_all_chunks true
       [Samples.null_content; Samples.planning] 1 ChunkProcessor.init
     = (Raise AttributeError, ChunkProcessor.init).
Proof. split; vm_compute; reflexivity. Qed.








(* --------------------------------------------------------------------- *)
(** *** Exports that follow the schema *)







(* --------------------------------------------------------------------- *)
(** *** Problems and the solutions paired with them *)

Lemma find_solution_window
    (messages : list DecisionTreeExtractor.flow_message) (i : nat) :
  i + 1 < List.length messages ->
  DecisionTreeExtractor.find_solution messages
    (DecisionTreeExtractor.range (i + 1)
       (Nat.min (i + 3) (List.length messages)))
  = Some (solution_text messages i).
Proof.
  intros Hi. unfold DecisionTreeExtractor.range, solution_text, solution_index.
  destruct (nth_error messages (i + 1)) as [m1|] eqn:E1;
    [|apply nth_error_None in E1; lia].
  destruct (Nat.eq_dec (List.length messages) (i + 2)) as [L|L].
  - replace (Nat.min (i + 3) (List.length messages) - (i + 1)) with 1 by lia.
    cbn [seq DecisionTreeExtractor.find_solution]. rewrite E1.
    assert (E2 : nth_error messages (i + 2) = None)
      by (apply nth_error_None; lia).
    rewrite E2. unfold gives_solution.
    destruct (eq_str (DecisionTreeExtractor.role m1) "user"); cbn [andb];
      [|reflexivity].
    destruct (DecisionTreeExtractor.any_in _ _); [now rewrite E1 | reflexivity].
  - replace (Nat.min (i + 3) (List.length messages) - (i + 1)) with 2 by lia.
    cbn [seq DecisionTreeExtractor.find_solution]. rewrite E1.
    replace (S (i + 1)) with (i + 2) by lia.
    destruct (nth_error messages (i + 2)) as [m2|] eqn:E2;
      [|apply nth_error_None in E2; lia].
    unfold gives_solution.
    destruct (eq_str (DecisionTreeExtractor.role m1) "user"); cbn [andb].
    + destruct (DecisionTreeExtractor.any_in _ _); [now rewrite E1|].
      destruct (eq_str (DecisionTreeExtractor.role m2) "user"); cbn [andb];
        [|reflexivity].
      destruct (DecisionTreeExtractor.any_in _ _); [now rewrite E2 | reflexivity].
    + destruct (eq_str (DecisionTreeExtractor.role m2) "user"); cbn [andb];
        [|reflexivity].
      destruct (DecisionTreeExtractor.any_in _ _); [now rewrite E2 | reflexivity].
Qed.

Lemma pair_at_appends (title : json)
    (messages : list DecisionTreeExtractor.flow_message)
    (pairs : list DecisionTreeExtractor.problem_solution) (i : nat) :
  i + 1 < List.length messages ->
  DecisionTreeExtractor.pair_at title messages pairs i
  = Some (pairs ++ pair_of title messages i).
Proof.
  intros Hi. unfold DecisionTreeExtractor.pair_at, pair_of.
  destruct (nth_error messages i) as [mi|] eqn:E;
    [|apply nth_error_None in E; lia].
  unfold states_problem.
  destruct (eq_str (DecisionTreeExtractor.role mi) "user"); cbn [andb];
    [|now rewrite app_nil_r].
  destruct (DecisionTreeExtractor.any_in _ _); [|now rewrite app_nil_r].
  rewrite (find_solution_window messages i Hi).
  destruct (solution_text messages i); [reflexivity | now rewrite app_nil_r].
Qed.

Lemma pairs_from_appends (title : json)
    (messages : list DecisionTreeExtractor.flow_message) (n : nat) :
  forall lo pairs,
    lo + n + 1 <= List.length messages \/ n = 0 ->
    DecisionTreeExtractor.pairs_from title messages (seq lo n) pairs
    = Some (pairs ++ flat_map (pair_of title messages) (seq lo n)).
Proof.
  induction n as [|n IH]; intros lo pairs H; simpl.
  - now rewrite app_nil_r.
  - rewrite pair_at_appends by lia. rewrite IH by lia.
    now rewrite <- app_assoc.
Qed.

Lemma flow_pairs_appends (title : json)
    (messages : list DecisionTreeExtractor.flow_message)
    (pairs : list DecisionTreeExtractor.problem_solution) :
  DecisionTreeExtractor.flow_pairs title messages pairs
  = Some (pairs ++ flat_map (pair_of title messages)
                     (seq 0 (List.length messages - 1))).
Proof.
  unfold DecisionTreeExtractor.flow_pairs, DecisionTreeExtractor.range.
  rewrite Nat.sub_0_r. apply pairs_from_appends. lia.
Qed.

Lemma pair_of_short (title : json)
    (messages : list DecisionTreeExtractor.flow_message) (i : nat) :
  List.length (pair_of title messages i) <= 1.
Proof.
  unfold pair_of. destruct (nth_error messages i); [|simpl; lia].
  destruct (states_problem f); [|simpl; lia].
  destruct (solution_text messages i); simpl; lia.
Qed.

Lemma flat_map_short {A B} (f : A -> list B) (xs : list A) :
  (forall x, List.length (f x) <= 1) ->
  List.length (flat_map f xs) <= List.length xs.
Proof.
  intros Hf. induction xs as [|x xs IH]; simpl; [lia|].
  rewrite length_app. specialize (Hf x). lia.
Qed.

(** X11. The flow loop of [extract_problem_solutions] never runs out of
    the list.  What it appends is, going through the messages but the
    last in order, one pair for each user message that holds a problem
    indicator and is followed, among the next two messages of the flow
    (whoever wrote the one in between), by a user message holding a
    solution indicator: the problem joined with the first such message,
    both cut at 300 characters.  A message that answers two problems is
    paired twice, and there are fewer pairs than messages. *)
Theorem flow_pairs_join_problem_and_next_solution (title : json)
    (messages : list DecisionTreeExtractor.flow_message) :
  exists pairs,
    DecisionTreeExtractor.flow_pairs title messages [] = Some pairs
    /\ pairs = flat_map (pair_of title messages)
                 (seq 0 (List.length messages - 1))
    /\ (forall i,
          pair_of title messages i
          = match nth_error messages i, solution_index messages i with
            | Some mi, Some j =>
                match nth_error messages j with
                | Some mj =>
                    if states_problem mi
                    then [ {| DecisionTreeExtractor.problem :=
                                take 300 (DecisionTreeExtractor.content mi);
                              DecisionTreeExtractor.solution :=
                                take 300 (DecisionTreeExtractor.content mj);
                              DecisionTreeExtractor.pair_title := title |} ]
                    else []
                | None => []
                end
            | _, _ => []
            end)
    /\ (forall p, In p pairs <->
          exists i mi j mj,
            nth_error messages i = Some mi /\ states_problem mi = true
            /\ solution_index messages i = Some j
            /\ nth_error messages j = Some mj
            /\ p = {| DecisionTreeExtractor.problem :=
                        take 300 (DecisionTreeExtractor.content mi);
                      DecisionTreeExtractor.solution :=
                        take 300 (DecisionTreeExtractor.content mj);
                      DecisionTreeExtractor.pair_title := title |})
    /\ (forall i j, solution_index messages i = Some j ->
          i < j <= i + 2
          /\ (exists mj, nth_error messages j = Some mj
                         /\ gives_solution mj = true)
          /\ forall k mk, i < k < j -> nth_error messages k = Some mk ->
                          gives_solution mk = false)
    /\ (forall i j mj, i < j <= i + 2 -> nth_error messages j = Some mj ->
          gives_solution mj = true ->
          exists j', solution_index messages i = Some j')
    /\ List.length pairs <= List.length messages - 1.
Proof.
  eexists. split; [apply flow_pairs_appends|]. cbn [app].
  split; [reflexivity|].
  split.
  { intros i. unfold pair_of, solution_text.
    destruct (nth_error messages i) as [mi|]; [|reflexivity].
    destruct (solution_index messages i) as [j|];
      [|now destruct (states_problem mi)].
    destruct (nth_error messages j) as [mj|];
      now destruct (states_problem mi). }
  split; [|split; [|split]].
  - intros p. rewrite in_flat_map. split.
    + intros (i & Hi & Hp). unfold pair_of in Hp.
      destruct (nth_error messages i) as [mi|] eqn:Ei; [|destruct Hp].
      destruct (states_problem mi) eqn:Sp; [|destruct Hp].
      unfold solution_text in Hp.
      destruct (solution_index messages i) as [j|] eqn:Ej; [|destruct Hp].
      destruct (nth_error messages j) as [mj|] eqn:Emj; [|destruct Hp].
      destruct Hp as [<-|[]]. exists i, mi, j, mj. auto.
    + intros (i & mi & j & mj & Ei & Sp & Ej & Emj & ->).
      exists i. split.
      * apply in_seq.
        assert (i + 1 < List.length messages).
        { unfold solution_index in Ej.
          destruct (nth_error messages (i + 1)) eqn:E1; [|discriminate].
          apply nth_error_Some. congruence. }
        lia.
      * unfold pair_of, solution_text. rewrite Ei, Sp, Ej, Emj. now left.
  - intros i j Ej. unfold solution_index in Ej.
    destruct (nth_error messages (i + 1)) as [m1|] eqn:E1; [|discriminate].
    destruct (gives_solution m1) eqn:G1.
    + injection Ej as <-. split; [lia|]. split; [eauto|].
      intros k mk Hk. lia.
    + destruct (nth_error messages (i + 2)) as [m2|] eqn:E2; [|discriminate].
      destruct (gives_solution m2) eqn:G2; [|discriminate].
      injection Ej as <-. split; [lia|]. split; [eauto|].
      intros k mk Hk Ek. assert (k = i + 1) by lia. subst k. congruence.
  - intros i j mj Hj Ej Gj. unfold solution_index.
    destruct (nth_error messages (i + 1)) as [m1|] eqn:E1.
    + destruct (gives_solution m1) eqn:G1; [eauto|].
      assert (j = i + 2) by (destruct (Nat.eq_dec j (i + 1)); [subst j; congruence | lia]).
      subst j. rewrite Ej, Gj. eauto.
    + apply nth_error_None in E1.
      assert (nth_error messages j <> None) by congruence.
      apply nth_error_Some in H. lia.
  - etransitivity; [apply flat_map_short, pair_of_short|].
    now rewrite length_seq.
Qed.

Lemma problem_solution_pairs_returns (conversations : list json) :
  forall pairs r,
    DecisionTreeExtractor.problem_solution_pairs conversations pairs = Ok r ->
    exists pairs', r = Some pairs'.
Proof.
  induction conversations as [|conv rest IH]; simpl; intros pairs r H.
  - injection H as <-. eauto.
  - unfold DecisionTreeExtractor.conversation_pairs at 1 in H.
    destruct (get_or conv "mapping" (JObj [])) as [mapping|];
      cbn [bind] in H; [|discriminate].
    destruct (get_or conv "title" (JStr "Unknown")) as [title|];
      cbn [bind] in H; [|discriminate].
    destruct (items mapping) as [nodes|]; cbn [bind] in H; [|discriminate].
    destruct (collect _ _ _) as [messages|]; cbn [bind] in H; [|discriminate].
    rewrite flow_pairs_appends in H. now apply IH in H.
Qed.

Lemma lookup_list_group_pairs (k : string)
    (pairs : list DecisionTreeExtractor.problem_solution) :
  forall d,
    lookup_list k (DecisionTreeExtractor.group_pairs pairs d)
    = lookup_list k d
      ++ filter (fun p =>
                   String.eqb (DecisionTreeExtractor.categorize_problem
                                 (DecisionTreeExtractor.problem p)) k) pairs.
Proof.
  unfold DecisionTreeExtractor.group_pairs.
  induction pairs as [|p pairs IH]; intros d; simpl.
  - now rewrite app_nil_r.
  - rewrite IH, lookup_list_extend_at.
    destruct (String.eqb _ k); simpl; now rewrite <- app_assoc.
Qed.

(** X12. When [extract_problem_solutions] returns, no index went out of
    range, and [problem_to_solution] holds under each category what it held
    before followed by the pairs [categorize_problem] puts there, in the
    order they were found: every pair is filed once, under the category of
    its problem text as cut at 300 characters. *)
Theorem extract_problem_solutions_files_each_pair (conversations : list json)
    (problem_to_solution : list (string * list DecisionTreeExtractor.problem_solution))
    (r : option (list (string * list DecisionTreeExtractor.problem_solution)))
    (Hret : DecisionTreeExtractor.extract_problem_solutions conversations
              problem_to_solution = Ok r) :
  exists pairs filed,
    DecisionTreeExtractor.problem_solution_pairs conversations [] = Ok (Some pairs)
    /\ r = Some filed
    /\ forall category,
         lookup_list category filed
         = lookup_list category problem_to_solution
           ++ filter (fun p =>
                        String.eqb (DecisionTreeExtractor.categorize_problem
                                      (DecisionTreeExtractor.problem p))
                                   category) pairs.
Proof.
  unfold DecisionTreeExtractor.extract_problem_solutions in Hret.
  destruct (DecisionTreeExtractor.problem_solution_pairs conversations [])
    as [found|] eqn:E; cbn [bind] in Hret; [|discriminate].
  destruct (problem_solution_pairs_returns _ _ _ E) as [pairs ->].
  injection Hret as <-. exists pairs, (DecisionTreeExtractor.group_pairs pairs problem_to_solution).
  split; [reflexivity|]. split; [reflexivity|].
  intros category. apply lookup_list_group_pairs.
Qed.

Lemma extract_problem_solutions_files_each_pair_witness :
  exists pairs filed,
    DecisionTreeExtractor.problem_solution_pairs [Samples.stuck_then_fixed] []
    = Ok (Some pairs)
    /\ Some [("coding",
              [ {| DecisionTreeExtractor.problem := "I am stuck on the booking code";
                   DecisionTreeExtractor.solution := "Ended up rewriting the cache layer";
                   DecisionTreeExtractor.pair_title := JStr "Booking bug" |} ])]
       = Some filed
    /\ forall category,
         lookup_list category filed
         = lookup_list category []
           ++ filter (fun p =>
                        String.eqb (DecisionTreeExtractor.categorize_problem
                                      (DecisionTreeExtractor.problem p))
                                   category) pairs.
Proof.
  apply (extract_problem_solutions_files_each_pair [Samples.stuck_then_fixed] []).
  vm_compute. reflexivity.
Defined.

(* --------------------------------------------------------------------- *)
(** *** What the deep dive has to work with *)

Lemma full_conversation_has_no_messages (fuel : nat) (conv : json)
    (r : DeepDiveAnalyzer.flow) :
  DeepDiveAnalyzer.extract_full_conversation fuel conv = Ok r ->
  DeepDiveAnalyzer.messages r = [].
Proof.
  unfold DeepDiveAnalyzer.extract_full_conversation.
  destruct (get_or conv "mapping" (JObj [])) as [mapping|]; simpl; [|discriminate].
  destruct (get_or conv "title" (JStr "Unknown")) as [title|]; simpl; [|discriminate].
  destruct (get_or conv "create_time" (JNum 0)) as [time|]; simpl; [|discriminate].
  destruct (items mapping) as [nodes|]; simpl; [|discriminate].
  destruct (foldM DeepDiveAnalyzer.organize nodes []) as [d|]; simpl; [|discriminate].
  destruct (keys mapping) as [ids|]; simpl; [|discriminate].
  rewrite no_root_selected. simpl. now intros [= <-].
Qed.

Lemma full_conversation_returns (fuel : nat) (conv : json) :
  Shape.record_ok conv = true ->
  exists r, DeepDiveAnalyzer.extract_full_conversation fuel conv = Ok r.
Proof.
  unfold DeepDiveAnalyzer.extract_full_conversation, Shape.record_ok. intros H.
  destruct conv as [| b | q | s | l | fields]; try discriminate.
  unfold get_or.
  assert (exists nodes,
             match lookup "mapping" fields with
             | Some v => Ok v
             | None => Ok (JObj [])
             end = Ok (JObj nodes)
             /\ forallb (fun kv => Shape.node_ok (snd kv)) nodes = true)
    as (nodes & -> & Hn).
  { destruct (lookup "mapping" fields) as [[| b | q | s | l | nodes]|];
      try discriminate; eauto. }
  simpl bind.
  destruct (lookup "title" fields) as [title|];
    destruct (lookup "create_time" fields) as [time|]; simpl bind;
    destruct (first_pass_ok nodes Hn []) as [d ->]; simpl bind;
    rewrite no_root_selected; simpl; eauto.
Qed.

Lemma analyze_conversation_adds_nothing (fuel : nat) (conv : json)
    (types types' : list (string * list DeepDiveAnalyzer.typed_conversation)) :
  DeepDiveAnalyzer.analyze_conversation fuel types conv = Ok types' ->
  types' = types.
Proof.
  unfold DeepDiveAnalyzer.analyze_conversation.
  destruct (DeepDiveAnalyzer.extract_full_conversation fuel conv) as [r|] eqn:E;
    cbn [bind]; [|discriminate].
  rewrite (full_conversation_has_no_messages _ _ _ E). simpl.
  now intros [= <-].
Qed.

Lemma analyze_conversations_add_nothing (fuel : nat) (conversations : list json) :
  forall start types,
    foldM (DeepDiveAnalyzer.analyze_conversation fuel) conversations start
    = Ok types ->
    types = start.
Proof.
  induction conversations as [|conv rest IH]; simpl; intros start types H.
  - now injection H as <-.
  - destruct (DeepDiveAnalyzer.analyze_conversation fuel start conv)
      as [t|] eqn:E; cbn [bind] in H; [|discriminate].
    apply analyze_conversation_adds_nothing in E. subst t. now apply IH.
Qed.

Lemma analyze_conversations_return (fuel : nat) (conversations : list json) :
  forallb Shape.record_ok conversations = true ->
  forall start,
    foldM (DeepDiveAnalyzer.analyze_conversation fuel) conversations start
    = Ok start.
Proof.
  induction conversations as [|conv rest IH]; simpl; intros Hok start;
    [reflexivity|].
  apply andb_true_iff in Hok as [Hc Hr].
  destruct (full_conversation_returns fuel conv Hc) as [r E].
  unfold DeepDiveAnalyzer.analyze_conversation at 1. rewrite E. cbn [bind].
  rewrite (full_conversation_has_no_messages _ _ _ E). simpl.
  now apply IH.
Qed.

(** X13. [analyze_conversation_patterns] classifies no conversation:
    whatever the export holds, every list of [conversation_types] is still
    empty when it returns, since [extract_full_conversation] hands it no
    message to read; and it does return on every corpus of records that
    [extract_full_conversation] reads. *)
Theorem analyze_conversation_patterns_finds_nothing (fuel : nat)
    (conversations : list json) :
  (forall types,
     DeepDiveAnalyzer.analyze_conversation_patterns fuel conversations = Ok types ->
     types = DeepDiveAnalyzer.conversation_types_0
     /\ forall conv_type, lookup_list conv_type types = [])
  /\ (forallb Shape.record_ok conversations = true ->
      DeepDiveAnalyzer.analyze_conversation_patterns fuel conversations
      = Ok DeepDiveAnalyzer.conversation_types_0).
Proof.
  unfold DeepDiveAnalyzer.analyze_conversation_patterns. split.
  - intros types H. apply analyze_conversations_add_nothing in H. subst types.
    split; [reflexivity|].
    intros conv_type.
    unfold lookup_list, DeepDiveAnalyzer.conversation_types_0.
    cbn [find fst snd].
    repeat match goal with
           | |- context [String.eqb ?a conv_type] =>
               destruct (String.eqb a conv_type); [reflexivity|]
           end.
    reflexivity.
  - intros Hok. now apply analyze_conversations_return.
Qed.

Lemma analyze_conversation_patterns_finds_nothing_witness :
  forallb Shape.record_ok [Samples.planning; Samples.child_first] = true
  /\ DeepDiveAnalyzer.analyze_conversation_patterns 1000
       [Samples.planning; Samples.child_first]
     = Ok DeepDiveAnalyzer.conversation_types_0.
Proof.
  split; [reflexivity|].
  apply (proj2 (analyze_conversation_patterns_finds_nothing 1000
                  [Samples.planning; Samples.child_first])).
  reflexivity.
Defined.

(* --------------------------------------------------------------------- *)
(** *** The metadata of an export *)

Lemma add_metadata_titles (repr : json -> string) (conversations : list json) :
  forall acc acc',
    foldM (ConversationAnalyzer.add_metadata repr) conversations acc = Ok acc' ->
    exists found,
      ConversationAnalyzer.titles acc' = ConversationAnalyzer.titles acc ++ found
      /\ Forall2 (fun conv title => get_or conv "title" (JStr "Untitled") = Ok title)
                 conversations found.
Proof.
  induction conversations as [|conv rest IH]; simpl; intros acc acc' H.
  - injection H as <-. exists []. split; [now rewrite app_nil_r | constructor].
  - unfold ConversationAnalyzer.add_metadata at 1 in H.
    destruct (get_or conv "title" (JStr "Untitled")) as [title|] eqn:T;
      cbn [bind] in H; [|discriminate].
    destruct (get conv "create_time") as [time|]; cbn [bind] in H; [|discriminate].
    destruct (ConversationAnalyzer.extract_messages repr conv) as [messages|];
      cbn [bind] in H; [|discriminate].
    apply IH in H as (found & E & F). cbn [ConversationAnalyzer.titles] in E.
    exists (title :: found). split.
    + now rewrite E, <- app_assoc.
    + now constructor.
Qed.

(** X14. [analyze_conversation_metadata] divides by the number of
    conversations: on an empty export it ends in a [ZeroDivisionError]
    instead of returning, whatever the date line does.  When it returns,
    the export was not empty and the titles are those of the
    conversations, one each and in order, with ['Untitled'] for a
    conversation that has none. *)
Theorem analyze_conversation_metadata_titles (repr : json -> string)
    (print_date_range : list json -> result unit) :
  ConversationAnalyzer.analyze_conversation_metadata repr print_date_range []
  = ConversationAnalyzer.ZeroDivisionError
  /\ forall conversations titles,
       ConversationAnalyzer.analyze_conversation_metadata repr print_date_range
         conversations = ConversationAnalyzer.Returned titles ->
       conversations <> []
       /\ Forall2 (fun conv title =>
                     get_or conv "title" (JStr "Untitled") = Ok title)
                  conversations titles.
Proof.
  split; [reflexivity|].
  intros conversations titles.
  unfold ConversationAnalyzer.analyze_conversation_metadata.
  destruct (foldM _ conversations _) as [acc|] eqn:F; [|discriminate].
  destruct (match ConversationAnalyzer.date_range acc with
            | [] => Ok tt
            | _ :: _ => print_date_range (ConversationAnalyzer.date_range acc)
            end); [|discriminate].
  destruct conversations as [|conv rest]; [discriminate|].
  cbn [List.length Nat.eqb]. intros [= <-]. split; [discriminate|].
  apply add_metadata_titles in F as (found & E & F). now rewrite E.
Qed.

Lemma analyze_conversation_metadata_titles_witness :
  [Samples.planning; Samples.three_lengths] <> []
  /\ Forall2 (fun conv title => get_or conv "title" (JStr "Untitled") = Ok title)
             [Samples.planning; Samples.three_lengths]
             [JStr "Planning"; JStr "Lengths"].
Proof.
  apply (proj2 (analyze_conversation_metadata_titles
                  (fun _ => "") (fun _ => Ok tt))).
  vm_compute. reflexivity.
Defined.

(* --------------------------------------------------------------------- *)
(** *** The recurring terms of the report *)









(* --------------------------------------------------------------------- *)
(** *** The pairs of words a month is described by *)

Lemma adjacent_pairs_from (words : list string) :
  forall i, i + 1 < List.length words ->
  exists w w',
    nth_error words i = Some w /\ nth_error words (i + 1) = Some w'
    /\ skipn i (adjacent_pairs words)
       = (w, w') :: skipn (S i) (adjacent_pairs words).
Proof.
  induction words as [|a words IH]; intros i Hi; simpl in Hi; [lia|].
  destruct words as [|b words]; simpl in Hi; [lia|].
  destruct i as [|i].
  - exists a, b. repeat split.
  - destruct (IH i) as (w & w' & E1 & E2 & E3); [simpl; lia|].
    exists w, w'. split; [exact E1|]. split; [exact E2|].
    change (adjacent_pairs (a :: b :: words))
      with ((a, b) :: adjacent_pairs (b :: words)).
    cbn [skipn]. exact E3.
Qed.

Lemma count_phrases_at_pairs (words : list string) (n : nat) :
  forall lo key_phrases,
    lo + n + 1 <= List.length words \/ n = 0 ->
    RealAnalyzer.count_phrases_at words (seq lo n) key_phrases
    = Some (fold_left count_pair
              (firstn n (skipn lo (adjacent_pairs words))) key_phrases).
Proof.
  induction n as [|n IH]; intros lo key_phrases H; [reflexivity|].
  cbn [seq RealAnalyzer.count_phrases_at].
  destruct (adjacent_pairs_from words lo) as (w & w' & E1 & E2 & E3); [lia|].
  unfold RealAnalyzer.count_phrase_at. rewrite E1, E2, E3.
  cbn [firstn fold_left]. unfold count_pair at 2. cbn [fst snd].
  destruct ((3 <? String.length w) && (3 <? String.length w'));
    apply IH; lia.
Qed.

Lemma adjacent_pairs_length (words : list string) :
  List.length (adjacent_pairs words) = List.length words - 1.
Proof.
  induction words as [|a [|b words] IH]; try reflexivity.
  change (adjacent_pairs (a :: b :: words))
    with ((a, b) :: adjacent_pairs (b :: words)).
  cbn [List.length] in *. lia.
Qed.

Lemma adjacent_pairs_but_last (front : list string) (w w' : string) :
  adjacent_pairs (front ++ [w; w'])
  = adjacent_pairs (front ++ [w]) ++ [(w, w')].
Proof.
  induction front as [|a [|b front] IH]; try reflexivity.
  change ((a :: b :: front) ++ [w; w']) with (a :: (b :: front) ++ [w; w']).
  change ((a :: b :: front) ++ [w]) with (a :: (b :: front) ++ [w]).
  change (adjacent_pairs (a :: (b :: front) ++ [w; w']))
    with ((a, b) :: adjacent_pairs ((b :: front) ++ [w; w'])).
  change (adjacent_pairs (a :: (b :: front) ++ [w]))
    with ((a, b) :: adjacent_pairs ((b :: front) ++ [w])).
  now rewrite IH.
Qed.

(** X16. The key-phrase loop of [analyze_evolution] stays inside the
    list, but stops one pair short: of the neighbouring pairs of words of
    a message it counts all but the last, so the final word of a message
    is in no counted phrase, and a message of two words adds none. *)
Theorem last_pair_of_words_not_counted (front : list string) (w w' : string)
    (key_phrases : list (string * nat)) :
  RealAnalyzer.count_key_phrases (front ++ [w; w']) key_phrases
  = Some (fold_left count_pair (adjacent_pairs (front ++ [w])) key_phrases)
  /\ adjacent_pairs (front ++ [w; w'])
     = adjacent_pairs (front ++ [w]) ++ [(w, w')]
  /\ RealAnalyzer.count_key_phrases [w; w'] key_phrases = Some key_phrases
  /\ RealAnalyzer.count_key_phrases [w] key_phrases = Some key_phrases
  /\ RealAnalyzer.count_key_phrases [] key_phrases = Some key_phrases.
Proof.
  split; [|split; [apply adjacent_pairs_but_last | repeat split]].
  unfold RealAnalyzer.count_key_phrases.
  rewrite count_phrases_at_pairs.
  - cbn [skipn]. rewrite adjacent_pairs_but_last.
    rewrite firstn_app.
    replace (List.length (front ++ [w; w']) - 2)
      with (List.length (adjacent_pairs (front ++ [w]))).
    + rewrite firstn_all, Nat.sub_diag. cbn [firstn]. now rewrite app_nil_r.
    + rewrite adjacent_pairs_length, !length_app. simpl. lia.
  - rewrite length_app. simpl. lia.
Qed.
